(** * tagias-node: the TAGIAS helper module (index.js)

    A shallow embedding of the client in index.js: JavaScript values as
    an inductive type with objects as finite maps, thrown values and the
    log of issued HTTP requests threaded through a small monad, and the
    HTTP transport (the axios instance's network side) taken as an
    arbitrary function from requests to replies. *)

From stdpp Require Import gmap strings list fin_maps.
From Stdlib Require Import ZArith.

#[local] Set Warnings "-register-all".

(** ** JavaScript values

    Objects are finite maps from property names to values: a property
    that is absent has no binding, which is different from a property
    bound to [JUndefined] or [JNull].  A [Date] object is represented by
    the value it was constructed from, [JDate v] standing for
    [new Date(v)].  Numbers are the integers: the code only tests them
    for truthiness and compares them with the literal 401. *)
Inductive JsVal :=
| JUndefined
| JNull
| JBool (b : bool)
| JNum (n : Z)
| JStr (s : string)
| JArr (items : list JsVal)
| JObj (props : gmap string JsVal)
| JDate (src : JsVal).

(** ToBoolean, as applied by [if (v)], [!v] and [a && b]. *)
Definition truthy (v : JsVal) : bool :=
  match v with
  | JUndefined | JNull => false
  | JBool b => b
  | JNum n => negb (n =? 0)%Z
  | JStr s => negb (String.eqb s "")
  | JArr _ | JObj _ | JDate _ => true
  end.

(** [v === lit] for a primitive literal [lit] (a string, a number or a
    boolean); the code compares with literals only. *)
Definition strict_eq (v lit : JsVal) : bool :=
  match v, lit with
  | JUndefined, JUndefined => true
  | JNull, JNull => true
  | JBool a, JBool b => Bool.eqb a b
  | JNum a, JNum b => (a =? b)%Z
  | JStr a, JStr b => String.eqb a b
  | _, _ => false
  end.

(** Property read [v.k] for the names index.js reads (none of them is
    defined on a built-in prototype).  [None] is the TypeError raised on
    [undefined] and [null]; primitives, arrays and dates have no such
    property; an object yields its binding, or [undefined]. *)
Definition getProp (v : JsVal) (k : string) : option JsVal :=
  match v with
  | JUndefined | JNull => None
  | JObj o => Some (default JUndefined (o !! k))
  | _ => Some JUndefined
  end.

(** Property write [v.k = x] in strict mode ('use strict' heads the
    file): a TypeError on [undefined], [null] and primitives.  The code
    writes a property only after reading a truthy value from it, hence
    only on objects. *)
Definition setProp (v : JsVal) (k : string) (x : JsVal) : option JsVal :=
  match v with
  | JObj o => Some (JObj (<[k := x]> o))
  | _ => None
  end.

(** [delete v.k] on an object. *)
Definition deleteProp (v : JsVal) (k : string) : option JsVal :=
  match v with
  | JUndefined | JNull => None
  | JObj o => Some (JObj (delete k o))
  | _ => Some v
  end.

(** Element read [a[i]] and element replacement on an array. *)
Definition getIndex (a : JsVal) (i : nat) : option JsVal :=
  match a with
  | JUndefined | JNull => None
  | JArr items => Some (default JUndefined (items !! i))
  | _ => Some JUndefined
  end.

Definition setIndex (a : JsVal) (i : nat) (x : JsVal) : option JsVal :=
  match a with
  | JArr items => Some (JArr (<[i := x]> items))
  | _ => None
  end.

(** ** Error codes and messages *)

(** The enum [TagiasErrors]. *)
Module TagiasErrors.
Definition NONAME : string := "NONAME".
Definition NOPICTURES : string := "NOPICTURES".
Definition BADPICTURES : string := "BADPICTURES".
Definition NOLABELS : string := "NOLABELS".
Definition BADCALLBACK : string := "BADCALLBACK".
Definition BADBASEURL : string := "BADBASEURL".
Definition BADTYPE : string := "BADTYPE".
Definition BADSTATUS : string := "BADSTATUS".
Definition NOTFOUND : string := "NOTFOUND".
Definition INTERNAL : string := "INTERNAL".
Definition NOAPIKEY : string := "NOAPIKEY".
Definition UNAUTHORIZED : string := "UNAUTHORIZED".

(** The members of the enum, in declaration order. *)
Definition all : list string :=
  [NONAME; NOPICTURES; BADPICTURES; NOLABELS; BADCALLBACK; BADBASEURL;
   BADTYPE; BADSTATUS; NOTFOUND; INTERNAL; NOAPIKEY; UNAUTHORIZED].
End TagiasErrors.

Definition TAGIAS_URL : string := "https://p.tagias.com/api/v2/tagias".

(** The [switch] of [translateErrorCode]: cases are matched with [===]
    from top to bottom. *)
Definition translateErrorCode (code : JsVal) : string :=
  if strict_eq code (JStr TagiasErrors.NONAME) then
    "The package name is missing"
  else if strict_eq code (JStr TagiasErrors.NOPICTURES) then
    "The pictures array is empty or missing"
  else if strict_eq code (JStr TagiasErrors.BADPICTURES) then
    "Some of the provided pictures could not be accessed or their URLs are malformed"
  else if strict_eq code (JStr TagiasErrors.NOLABELS) then
    "The labels array for the classification task is missing (or there are less than 2 items in the array)"
  else if strict_eq code (JStr TagiasErrors.BADCALLBACK) then
    "The callback URL is malformed"
  else if strict_eq code (JStr TagiasErrors.BADBASEURL) then
    "The baseurl URL is malformed"
  else if strict_eq code (JStr TagiasErrors.BADTYPE) then
    "The type value is not one of the allowed values"
  else if strict_eq code (JStr TagiasErrors.BADSTATUS) then
    "The status value is not one of the allowed values or this kind of change is not allowed"
  else if strict_eq code (JStr TagiasErrors.NOTFOUND) then
    "The specified object does not exist"
  else if strict_eq code (JStr TagiasErrors.INTERNAL) then
    "An internal error has occurred"
  else if strict_eq code (JStr TagiasErrors.NOAPIKEY) then
    "TAGIAS API Key is not provided"
  else if strict_eq code (JStr TagiasErrors.UNAUTHORIZED) then
    "TAGIAS API Key is incorrect"
  else "Unknown error code".

(** The class [TagiasError]: the message passed to [Error], the code as
    given, and the fixed name. *)
Record TagiasError := {
  message : string;
  code : JsVal;
  name : string
}.

Definition TagiasError_new (c : JsVal) : TagiasError :=
  {| message := translateErrorCode c; code := c; name := "TagiasError" |}.

(** ** Thrown values, requests and the monad of the client *)

(** What a call can throw: a [TagiasError], a TypeError of the runtime,
    or the value an axios call rejected with. *)
Inductive Exn :=
| TagiasErr (e : TagiasError)
| TypeErr
| Thrown (e : JsVal).

Inductive Verb := GET | POST | PATCH.

(** A call on the axios instance: verb, URL, the headers the instance
    was created with, and the data argument ([None] when the call passes
    none). *)
Record Request := {
  method : Verb;
  url : string;
  headers : gmap string string;
  body : option JsVal
}.

(** The promise of an axios call settles with a response object or is
    rejected with an error value. *)
Inductive Reply :=
| Resolved (result : JsVal)
| Rejected (e : JsVal).

Inductive Result (A : Type) :=
| Return (a : A)
| Throw (e : Exn).
Arguments Return {A} a.
Arguments Throw {A} e.

(** A computation reads the transport, appends to the log of requests
    issued so far, and returns or throws. *)
Definition Comp (A : Type) : Type :=
  (Request → Reply) → list Request → Result A * list Request.

#[export] Instance Comp_ret : MRet Comp :=
  λ A (a : A) _ log, (Return a, log).

#[export] Instance Comp_bind : MBind Comp :=
  λ A B (f : A → Comp B) (c : Comp A) net log,
    match c net log with
    | (Return a, log') => f a net log'
    | (Throw e, log') => (Throw e, log')
    end.

Definition throw {A} (e : Exn) : Comp A :=
  λ _ log, (Throw e, log).

(** [try { c } catch (e) { h e }] *)
Definition try_catch {A} (c : Comp A) (h : Exn → Comp A) : Comp A :=
  λ net log,
    match c net log with
    | (Return a, log') => (Return a, log')
    | (Throw e, log') => h e net log'
    end.

(** A runtime step that raises a TypeError when it has no value. *)
Definition liftE {A} (o : option A) : Comp A :=
  match o with
  | Some a => mret a
  | None => throw TypeErr
  end.

(** Issue one request and await its reply. *)
Definition send (rq : Request) : Comp JsVal :=
  λ net log,
    (match net rq with
     | Resolved r => Return r
     | Rejected e => Throw (Thrown e)
     end, log ++ [rq]).

(** Run a computation from an empty log. *)
Definition run {A} (c : Comp A) (net : Request → Reply) : Result A * list Request :=
  c net [].

(** ** apiCall *)

(** The test of the catch block,
    [e.isAxiosError === true && e.response && e.response.status === 401]. *)
Definition is_unauthorized (e : JsVal) : option bool :=
  ax ← getProp e "isAxiosError";
  if strict_eq ax (JBool true) then
    resp ← getProp e "response";
    if truthy resp then
      st ← getProp resp "status";
      Some (strict_eq st (JNum 401))
    else Some false
  else Some false.

Definition apiCall_catch (e : Exn) : Comp JsVal :=
  match e with
  | Thrown v =>
      b ← liftE (is_unauthorized v);
      if b : bool then throw (TagiasErr (TagiasError_new (JStr TagiasErrors.UNAUTHORIZED)))
      else throw e
  | _ => throw e
  end.

Definition apiCall (func : Comp JsVal) : Comp JsVal :=
  result ← try_catch func apiCall_catch;
  data ← liftE (getProp result "data");
  status ← liftE (getProp data "status");
  if negb (strict_eq status (JStr "ok")) then
    error ← liftE (getProp data "error");
    throw (TagiasErr (TagiasError_new error))
  else mret data.

(** ** The axios instance *)

(** [axios.create({ headers })]: the instance keeps the headers it was
    created with and attaches them to every call made through it. *)
Record AxiosInstance := {
  config_headers : gmap string string
}.

Definition axios_create (hs : gmap string string) : AxiosInstance :=
  {| config_headers := hs |}.

Definition axios_get (inst : AxiosInstance) (u : string) : Comp JsVal :=
  send {| method := GET; url := u; headers := config_headers inst; body := None |}.

Definition axios_post (inst : AxiosInstance) (u : string) (data : option JsVal) : Comp JsVal :=
  send {| method := POST; url := u; headers := config_headers inst; body := data |}.

Definition axios_patch (inst : AxiosInstance) (u : string) (data : option JsVal) : Comp JsVal :=
  send {| method := PATCH; url := u; headers := config_headers inst; body := data |}.

(** ** The class Tagias *)

Record Tagias := {
  apiKey : string;
  instance : AxiosInstance
}.

(** The constructor.  Its parameter is documented as a string; [None]
    is the argument left out.  [!apiKey] holds for a missing argument and
    for the empty string. *)
Definition Tagias_constructor (key : option string) : Comp Tagias :=
  match key with
  | None => throw (TagiasErr (TagiasError_new (JStr TagiasErrors.NOAPIKEY)))
  | Some k =>
      if negb (truthy (JStr k)) then
        throw (TagiasErr (TagiasError_new (JStr TagiasErrors.NOAPIKEY)))
      else
        mret {| apiKey := k;
                instance := axios_create
                  (<["Content-Type" := "application/json"]>
                   (<["Authorization" := "Api-Key " +:+ k]> ∅)) |}
  end.

(** *** Date conversion *)

(** [if (obj.field) obj.field = new Date(obj.field);] where [obj] is the
    object itself ([path = None]) or its property [path]. *)
Definition parse_date (path : option string) (field : string) (result : JsVal) : option JsVal :=
  match path with
  | None =>
      v ← getProp result field;
      if truthy v then setProp result field (JDate v) else Some result
  | Some p =>
      obj ← getProp result p;
      v ← getProp obj field;
      if truthy v then
        obj' ← setProp obj field (JDate v);
        setProp result p obj'
      else Some result
  end.

(** The callback given to [map] in getPackages and getBalance,
    [(item, index) => { if (item.field) result.arr[index].field = new Date(item.field); }]. *)
Definition date_callback (arr field : string) (item : JsVal) (index : nat)
    (result : JsVal) : option JsVal :=
  v ← getProp item field;
  if truthy v then
    a ← getProp result arr;
    elt ← getIndex a index;
    elt' ← setProp elt field (JDate v);
    a' ← setIndex a index elt';
    setProp result arr a'
  else Some result.

(** The visits of [Array.prototype.map]: in increasing index order the
    callback receives the element the array holds at that moment.  The
    array [map] returns is dropped by both callers. *)
Fixpoint visit (arr : string) (cb : JsVal → nat → JsVal → option JsVal)
    (indices : list nat) (result : JsVal) : option JsVal :=
  match indices with
  | [] => Some result
  | index :: rest =>
      a ← getProp result arr;
      item ← getIndex a index;
      result' ← cb item index result;
      visit arr cb rest result'
  end.

(** [result.arr.map(cb)]: a TypeError unless [result.arr] is an array
    (property read of [undefined]/[null], or a call of something that is
    not a function). *)
Definition array_map (arr : string) (cb : JsVal → nat → JsVal → option JsVal)
    (result : JsVal) : option JsVal :=
  a ← getProp result arr;
  match a with
  | JArr items => visit arr cb (seq 0 (length items)) result
  | _ => None
  end.

(** *** The seven operations *)

Definition getPackages (this : Tagias) : Comp JsVal :=
  result ← apiCall (axios_get (instance this) (TAGIAS_URL +:+ "/packages"));
  result ← liftE (array_map "packages" (date_callback "packages" "created") result);
  liftE (getProp result "packages").

(** A parameter with the default value [null]: the default applies when
    the argument is [undefined]. *)
Definition default_null (v : JsVal) : JsVal :=
  match v with
  | JUndefined => JNull
  | _ => v
  end.

Definition createPackage (this : Tagias)
    (name type descr labels callback baseurl pictures labels_required : JsVal) : Comp JsVal :=
  let labels_required := default_null labels_required in
  let data := JObj (<["name" := name]> (<["type" := type]> (<["descr" := descr]>
                   (<["labels" := labels]> (<["callback" := callback]>
                   (<["baseurl" := baseurl]> (<["pictures" := pictures]>
                   (<["labels_required" := labels_required]> ∅)))))))) in
  result ← apiCall (axios_post (instance this) (TAGIAS_URL +:+ "/packages") (Some data));
  id ← liftE (getProp result "id");
  pictures_num ← liftE (getProp result "pictures_num");
  mret (JObj (<["id" := id]> (<["pictures_num" := pictures_num]> ∅))).

Definition setPackageStatus (this : Tagias) (id : string) (status : JsVal) : Comp JsVal :=
  let data := JObj (<["status" := status]> ∅) in
  _ ← apiCall (axios_patch (instance this) (TAGIAS_URL +:+ "/packages/" +:+ id) (Some data));
  mret JUndefined.

Definition getPackage (this : Tagias) (id : string) : Comp JsVal :=
  result ← apiCall (axios_get (instance this) (TAGIAS_URL +:+ "/packages/" +:+ id));
  result ← liftE (parse_date (Some "package") "created" result);
  result ← liftE (parse_date (Some "package") "started" result);
  result ← liftE (parse_date (Some "package") "stopped" result);
  result ← liftE (parse_date (Some "package") "finished" result);
  result ← liftE (parse_date (Some "package") "updated" result);
  result ← liftE (parse_date (Some "package") "delivered" result);
  liftE (getProp result "package").

Definition requestResult (this : Tagias) (id : string) : Comp JsVal :=
  _ ← apiCall (axios_post (instance this) (TAGIAS_URL +:+ "/packages/result/" +:+ id) None);
  mret JUndefined.

Definition getResult (this : Tagias) (id : string) : Comp JsVal :=
  result ← apiCall (axios_get (instance this) (TAGIAS_URL +:+ "/packages/result/" +:+ id));
  result ← liftE (parse_date None "finished" result);
  result ← liftE (deleteProp result "status");
  mret result.

Definition getBalance (this : Tagias) : Comp JsVal :=
  result ← apiCall (axios_get (instance this) (TAGIAS_URL +:+ "/balance"));
  result ← liftE (array_map "operations" (date_callback "operations" "date") result);
  result ← liftE (deleteProp result "status");
  mret result.

(** The operations of the client, for statements about all of them. *)
Inductive Operation :=
| OpGetPackages
| OpCreatePackage (name type descr labels callback baseurl pictures labels_required : JsVal)
| OpSetPackageStatus (id : string) (status : JsVal)
| OpGetPackage (id : string)
| OpRequestResult (id : string)
| OpGetResult (id : string)
| OpGetBalance.

Definition perform (this : Tagias) (op : Operation) : Comp JsVal :=
  match op with
  | OpGetPackages => getPackages this
  | OpCreatePackage n t d l c b p r => createPackage this n t d l c b p r
  | OpSetPackageStatus id s => setPackageStatus this id s
  | OpGetPackage id => getPackage this id
  | OpRequestResult id => requestResult this id
  | OpGetResult id => getResult this id
  | OpGetBalance => getBalance this
  end.

(** The verb and URL of each operation, as the interface list documents
    them: the fixed base URL followed by the sub-path. *)
Definition endpoint (op : Operation) : Verb * string :=
  match op with
  | OpGetPackages => (GET, TAGIAS_URL +:+ "/packages")
  | OpCreatePackage _ _ _ _ _ _ _ _ => (POST, TAGIAS_URL +:+ "/packages")
  | OpSetPackageStatus id _ => (PATCH, TAGIAS_URL +:+ "/packages/" +:+ id)
  | OpGetPackage id => (GET, TAGIAS_URL +:+ "/packages/" +:+ id)
  | OpRequestResult id => (POST, TAGIAS_URL +:+ "/packages/result/" +:+ id)
  | OpGetResult id => (GET, TAGIAS_URL +:+ "/packages/result/" +:+ id)
  | OpGetBalance => (GET, TAGIAS_URL +:+ "/balance")
  end.

(** The data argument of each operation's call. *)
Definition payload (op : Operation) : option JsVal :=
  match op with
  | OpCreatePackage n t d l c b p r =>
      Some (JObj (<["name" := n]> (<["type" := t]> (<["descr" := d]>
                 (<["labels" := l]> (<["callback" := c]> (<["baseurl" := b]>
                 (<["pictures" := p]> (<["labels_required" := default_null r]> ∅)))))))))
  | OpSetPackageStatus _ s => Some (JObj (<["status" := s]> ∅))
  | _ => None
  end.

(** The call each operation makes on the axios instance of the client. *)
Definition request_of (this : Tagias) (op : Operation) : Request :=
  {| method := (endpoint op).1;
     url := (endpoint op).2;
     headers := config_headers (instance this);
     body := payload op |}.

(** A rejection that reports an HTTP 401 response: an axios error whose
    response object has the status 401.  The body of the response
    (its [data]) is not constrained. *)
Definition http_401 (e : JsVal) : Prop :=
  ∃ o resp, e = JObj o ∧ o !! "isAxiosError" = Some (JBool true) ∧
            o !! "response" = Some (JObj resp) ∧ resp !! "status" = Some (JNum 401).

(** ** Notions used by the statements *)

(** A computation that issues no request. *)
Definition silent {A} (c : Comp A) : Prop :=
  ∀ net log, (c net log).2 = log.

(** The messages of the [switch], one pair per enumerated code. *)
Definition message_table : list (string * string) :=
  [("NONAME", "The package name is missing");
   ("NOPICTURES", "The pictures array is empty or missing");
   ("BADPICTURES", "Some of the provided pictures could not be accessed or their URLs are malformed");
   ("NOLABELS", "The labels array for the classification task is missing (or there are less than 2 items in the array)");
   ("BADCALLBACK", "The callback URL is malformed");
   ("BADBASEURL", "The baseurl URL is malformed");
   ("BADTYPE", "The type value is not one of the allowed values");
   ("BADSTATUS", "The status value is not one of the allowed values or this kind of change is not allowed");
   ("NOTFOUND", "The specified object does not exist");
   ("INTERNAL", "An internal error has occurred");
   ("NOAPIKEY", "TAGIAS API Key is not provided");
   ("UNAUTHORIZED", "TAGIAS API Key is incorrect")].

(** What the guarded assignment leaves in a property that holds [v]. *)
Definition date_value (v : JsVal) : JsVal :=
  if truthy v then JDate v else v.

(** The guarded assignment applied to each of [fields] in turn. *)
Definition parse_fields (fields : list string) (o : gmap string JsVal) : gmap string JsVal :=
  foldl (λ o f, alter date_value f o) o fields.

Definition parse_value (fields : list string) (v : JsVal) : JsVal :=
  match v with
  | JObj o => JObj (parse_fields fields o)
  | _ => v
  end.

Definition package_dates : list string :=
  ["created"; "started"; "stopped"; "finished"; "updated"; "delivered"].

(** [undefined] and [null], the values whose properties cannot be read. *)
Definition nullish (v : JsVal) : bool :=
  match v with
  | JUndefined | JNull => true
  | _ => false
  end.

(** The transport resolves the request with a response whose body is
    the object [d], and [d] carries the success marker. *)
Definition replies_ok (net : Request → Reply) (rq : Request) (d : gmap string JsVal) : Prop :=
  ∃ result, net rq = Resolved result ∧
            getProp result "data" = Some (JObj d) ∧
            d !! "status" = Some (JStr "ok").

(** [out] is [wire] with the guarded assignment applied to [fields]: a
    field that is absent stays absent, a field holding a truthy value
    holds the Date made from it, a field holding a falsy value keeps it,
    and every other property is as received. *)
Definition dates_parsed (fields : list string) (wire out : gmap string JsVal) : Prop :=
  ∀ k, out !! k = if decide (k ∈ fields) then date_value <$> wire !! k else wire !! k.

Definition item_parsed (fields : list string) (wire out : JsVal) : Prop :=
  match wire with
  | JObj w => ∃ o, out = JObj o ∧ dates_parsed fields w o
  | _ => out = wire
  end.

(** The property [k] of an item is as received. *)
Definition field_kept (k : string) (wire out : JsVal) : Prop :=
  match wire with
  | JObj w => ∃ o, out = JObj o ∧ o !! k = w !! k
  | _ => out = wire
  end.

(** ** Sample traffic *)

(** A client as the constructor builds it from the key "test". *)
Definition sample_client : Tagias :=
  {| apiKey := "test";
     instance := axios_create
       (<["Content-Type" := "application/json"]>
        (<["Authorization" := "Api-Key test"]> ∅)) |}.

(** A transport that answers every request with the body [d], and one
    that rejects every request with [e]. *)
Definition response_of (d : gmap string JsVal) : JsVal :=
  JObj (<["status" := JNum 200]> (<["data" := JObj d]> ∅)).

Definition respond (d : gmap string JsVal) : Request → Reply :=
  λ _, Resolved (response_of d).

Definition reject (e : JsVal) : Request → Reply :=
  λ _, Rejected e.

Definition error_envelope : gmap string JsVal :=
  <["status" := JStr "error"]> (<["error" := JStr "NOTFOUND"]> ∅).

Definition bare_error_envelope : gmap string JsVal :=
  <["status" := JStr "error"]> ∅.

Definition unauthorized_response : gmap string JsVal :=
  <["status" := JNum 401]>
  (<["data" := JObj (<["status" := JStr "ok"]> (<["balance" := JNum 100]> ∅))]> ∅).

Definition unauthorized_error : gmap string JsVal :=
  <["isAxiosError" := JBool true]> (<["response" := JObj unauthorized_response]> ∅).

Definition network_error : gmap string JsVal :=
  <["isAxiosError" := JBool true]> (<["code" := JStr "ECONNREFUSED"]> ∅).

Definition first_package : gmap string JsVal :=
  <["id" := JStr "p1"]> (<["name" := JStr "Test package"]>
  (<["status" := JStr "ACTIVE"]> (<["created" := JStr "2021-03-01T10:00:00.000Z"]>
  (<["stopped" := JNull]> ∅)))).

Definition second_package : gmap string JsVal :=
  <["id" := JStr "p2"]> (<["status" := JStr "FINISHED"]>
  (<["created" := JStr "2021-03-01T11:00:00.000Z"]>
  (<["started" := JStr "2021-03-02T08:30:00.000Z"]> ∅))).

Definition package_envelope : gmap string JsVal :=
  <["status" := JStr "ok"]> (<["package" := JObj first_package]> ∅).

Definition list_envelope : gmap string JsVal :=
  <["status" := JStr "ok"]>
  (<["packages" := JArr [JObj first_package; JObj second_package]]> ∅).

Definition deposit : gmap string JsVal :=
  <["date" := JStr "2021-02-27T09:00:00.000Z"]> (<["amount" := JNum 100]>
  (<["note" := JStr "Deposit"]> ∅)).

Definition balance_envelope : gmap string JsVal :=
  <["status" := JStr "ok"]> (<["balance" := JNum 100]>
  (<["operations" := JArr [JObj deposit]]> ∅)).

Definition result_envelope : gmap string JsVal :=
  <["status" := JStr "ok"]> (<["id" := JStr "p2"]>
  (<["finished" := JStr "2021-03-05T12:00:00.000Z"]>
  (<["baseurl" := JStr "https://p.tagias.com/samples/"]> (<["pictures" := JArr []]> ∅)))).

Definition create_envelope : gmap string JsVal :=
  <["status" := JStr "ok"]> (<["id" := JStr "p3"]> (<["pictures_num" := JNum 3]> ∅)).

(** A package whose creation time arrives as the empty string. *)
Definition blank_package : gmap string JsVal :=
  <["id" := JStr "p1"]> (<["created" := JStr ""]> ∅).

Definition blank_envelope : gmap string JsVal :=
  <["status" := JStr "ok"]> (<["package" := JObj blank_package]> ∅).

(** The call of test.js, which leaves labels_required out. *)
Definition sample_create : Comp JsVal :=
  createPackage sample_client (JStr "Test package") (JStr "Keypoints")
    (JStr "Put one point only in the center of the image") JNull JNull
    (JStr "https://p.tagias.com/samples/")
    (JArr [JStr "dog.8001.jpg"; JStr "dog.8002.jpg"; JStr "dog.8003.jpg"])
    JUndefined.

(** ** The remaining enumerations and further samples *)

(** The enum [TagiasStatuses]. *)
Module TagiasStatuses.
Definition ACTIVE : string := "ACTIVE".
Definition STOPPED : string := "STOPPED".
Definition SUSPENDED : string := "SUSPENDED".
Definition FINISHED : string := "FINISHED".
End TagiasStatuses.

(** The enum [TagiasTypes]. *)
Module TagiasTypes.
Definition BoundingBoxes : string := "BoundingBoxes".
Definition Polygons : string := "Polygons".
Definition Keypoints : string := "Keypoints".
Definition ClassificationSingle : string := "ClassificationSingle".
Definition ClassificationMultiple : string := "ClassificationMultiple".
Definition Lines : string := "Lines".
End TagiasTypes.


(** A computation that throws nothing but TypeErrors. *)
Definition type_errors_only {A} (c : Comp A) : Prop :=
  ∀ net log e log', c net log = (Throw e, log') → e = TypeErr.



(** A response whose body is the JSON value null. *)
Definition null_body_response : JsVal :=
  JObj (<["status" := JNum 200]> (<["data" := JNull]> ∅)).

(** A list of packages and a list of operations with a null entry. *)
Definition holed_list_envelope : gmap string JsVal :=
  <["status" := JStr "ok"]>
  (<["packages" := JArr [JObj first_package; JNull; JObj second_package]]> ∅).

Definition holed_balance_envelope : gmap string JsVal :=
  <["status" := JStr "ok"]> (<["balance" := JNum 100]>
  (<["operations" := JArr [JNull]]> ∅)).

(** * Properties *)

(** ** Values *)

Lemma strict_eq_str_true v s : strict_eq v (JStr s) = true ↔ v = JStr s.
Proof.
  destruct v; simpl; split; try discriminate; try congruence.
  - intros H. apply String.eqb_eq in H. by subst.
  - intros [= ->]. apply String.eqb_refl.
Qed.

Lemma strict_eq_str_false v s : v ≠ JStr s → strict_eq v (JStr s) = false.
Proof.
  intros H. destruct (strict_eq v (JStr s)) eqn:E; [|done].
  by apply strict_eq_str_true in E.
Qed.

Lemma getProp_same_domain v k k' : is_Some (getProp v k) → is_Some (getProp v k').
Proof. destruct v; simpl; eauto. Qed.

(** ** The catch block of apiCall *)

Lemma is_unauthorized_401 e : http_401 e → is_unauthorized e = Some true.
Proof.
  intros (o & resp & -> & Hax & Hresp & Hst).
  unfold is_unauthorized. simpl. rewrite Hax. simpl. rewrite Hresp. simpl.
  by rewrite Hst.
Qed.

Lemma is_unauthorized_true e : is_unauthorized e = Some true → http_401 e.
Proof.
  unfold is_unauthorized, http_401. destruct e as [| | | | | |o|]; simpl; try discriminate.
  destruct (o !! "isAxiosError") as [[| |[]| | | | |]|] eqn:Hax; simpl; try discriminate.
  destruct (o !! "response") as [[| |b|n|s| |resp|]|] eqn:Hresp; simpl; try discriminate;
    try (destruct b; discriminate); try (destruct (negb _); discriminate).
  destruct (resp !! "status") as [[| | |n| | | |]|] eqn:Hst; simpl; try discriminate.
  intros [= Hn]. apply Z.eqb_eq in Hn. subst. eauto 10.
Qed.

Lemma is_unauthorized_other e :
  e ≠ JUndefined → e ≠ JNull → ¬ http_401 e → is_unauthorized e = Some false.
Proof.
  intros Hu Hn Hno.
  destruct (is_unauthorized e) as [[]|] eqn:E.
  - destruct Hno. by apply is_unauthorized_true.
  - done.
  - exfalso. unfold is_unauthorized in E.
    destruct e as [| | | | | |o|]; simpl in E; try done.
    destruct (strict_eq _ _); [|done].
    destruct (truthy (default JUndefined (o !! "response"))) eqn:Ht; [|done].
    destruct (default JUndefined (o !! "response")); simpl in *; done.
Qed.

(** ** Steps that issue no request *)

Lemma silent_ret {A} (a : A) : silent (mret a).
Proof. by intros net log. Qed.

Lemma silent_throw {A} e : silent (@throw A e).
Proof. by intros net log. Qed.

Lemma silent_liftE {A} (o : option A) : silent (liftE o).
Proof. destruct o; [apply silent_ret | apply silent_throw]. Qed.

Lemma bind_log {A B} (c : Comp A) (f : A → Comp B) net log :
  (∀ a, silent (f a)) → ((c ≫= f) net log).2 = (c net log).2.
Proof.
  intros Hf. unfold mbind, Comp_bind.
  destruct (c net log) as [[a|e] log']; [apply Hf | done].
Qed.

Lemma silent_bind {A B} (c : Comp A) (f : A → Comp B) :
  silent c → (∀ a, silent (f a)) → silent (c ≫= f).
Proof. intros Hc Hf net log. by rewrite bind_log, Hc. Qed.

Lemma bind_throw {A B} (c : Comp A) (f : A → Comp B) net log e log' :
  c net log = (Throw e, log') → (c ≫= f) net log = (Throw e, log').
Proof. intros H. unfold mbind, Comp_bind. by rewrite H. Qed.

Lemma bind_return {A B} (c : Comp A) (f : A → Comp B) net log a log' :
  c net log = (Return a, log') → (c ≫= f) net log = f a net log'.
Proof. intros H. unfold mbind, Comp_bind. by rewrite H. Qed.

Lemma liftE_Some {A} (o : option A) a net log :
  o = Some a → liftE o net log = (Return a, log).
Proof. by intros ->. Qed.

Ltac silent_tac :=
  repeat first
    [ apply silent_ret | apply silent_throw | apply silent_liftE
    | apply silent_bind; [| intros ?] | match goal with |- silent (if ?b then _ else _) => destruct b end ].

(** ** apiCall applied to one request *)

Section ApiCall.
Variable net : Request → Reply.
Variable log : list Request.
Variable rq : Request.

Lemma apiCall_catch_silent e : silent (apiCall_catch e).
Proof. destruct e; unfold apiCall_catch; silent_tac. Qed.

(** The function given to apiCall is called once. *)
Lemma apiCall_log : (apiCall (send rq) net log).2 = log ++ [rq].
Proof.
  unfold apiCall. rewrite bind_log by (intros; silent_tac).
  unfold try_catch, send. destruct (net rq); [done | apply apiCall_catch_silent].
Qed.

Lemma apiCall_unauthorized e :
  net rq = Rejected e → is_unauthorized e = Some true →
  apiCall (send rq) net log =
    (Throw (TagiasErr (TagiasError_new (JStr TagiasErrors.UNAUTHORIZED))), log ++ [rq]).
Proof.
  intros Hnet He. apply bind_throw.
  unfold try_catch, send. rewrite Hnet. simpl.
  unfold mbind, Comp_bind. by rewrite (liftE_Some _ true).
Qed.

Lemma apiCall_rethrow e :
  net rq = Rejected e → is_unauthorized e = Some false →
  apiCall (send rq) net log = (Throw (Thrown e), log ++ [rq]).
Proof.
  intros Hnet He. apply bind_throw.
  unfold try_catch, send. rewrite Hnet. simpl.
  unfold mbind, Comp_bind. by rewrite (liftE_Some _ false).
Qed.

Lemma apiCall_not_ok result data status :
  net rq = Resolved result →
  getProp result "data" = Some data →
  getProp data "status" = Some status →
  status ≠ JStr "ok" →
  ∃ error, getProp data "error" = Some error ∧
    apiCall (send rq) net log = (Throw (TagiasErr (TagiasError_new error)), log ++ [rq]).
Proof.
  intros Hnet Hdata Hstatus Hne.
  destruct (getProp_same_domain data "status" "error") as [error Herr]; [eauto|].
  exists error. split; [done|].
  unfold apiCall. erewrite bind_return; last first.
  { unfold try_catch, send. by rewrite Hnet. }
  erewrite bind_return by (by apply liftE_Some).
  erewrite bind_return by (by apply liftE_Some).
  rewrite strict_eq_str_false by done. simpl.
  erewrite bind_return by (by apply liftE_Some). done.
Qed.

Lemma apiCall_ok result data :
  net rq = Resolved result →
  getProp result "data" = Some data →
  getProp data "status" = Some (JStr "ok") →
  apiCall (send rq) net log = (Return data, log ++ [rq]).
Proof.
  intros Hnet Hdata Hstatus.
  unfold apiCall. erewrite bind_return; last first.
  { unfold try_catch, send. by rewrite Hnet. }
  erewrite bind_return by (by apply liftE_Some).
  erewrite bind_return by (by apply liftE_Some).
  done.
Qed.
End ApiCall.

(** ** Every operation is apiCall on its request, then local steps *)

Lemma perform_throw this op net log e log' :
  apiCall (send (request_of this op)) net log = (Throw e, log') →
  perform this op net log = (Throw e, log').
Proof. intros H. destruct op; by apply bind_throw. Qed.

Lemma perform_log this op net log :
  (perform this op net log).2 = log ++ [request_of this op].
Proof.
  destruct op; simpl;
    (etrans; [apply bind_log; intros; silent_tac | apply apiCall_log]).
Qed.

(** ** Error translation *)

Lemma message_table_codes : message_table.*1 = TagiasErrors.all.
Proof. reflexivity. Qed.

Lemma translate_unknown v :
  (∀ c, c ∈ TagiasErrors.all → v ≠ JStr c) →
  translateErrorCode v = "Unknown error code".
Proof.
  intros H. unfold translateErrorCode.
  repeat (rewrite strict_eq_str_false;
          [| apply H; unfold TagiasErrors.all; set_solver]).
  done.
Qed.

(** C9: for each of the twelve enumerated codes, the TagiasError built
    from the code carries exactly that code, the name TagiasError and
    the message the table gives for it; and the translation is a total
    function whose value on any code whatsoever is one of the twelve
    messages or the fallback message. *)
Theorem C9_error_translation :
  Forall (λ cm, TagiasError_new (JStr cm.1) =
                {| message := cm.2; code := JStr cm.1; name := "TagiasError" |})
         message_table
  ∧ message_table.*1 = TagiasErrors.all
  ∧ ∀ v, translateErrorCode v ∈ message_table.*2 ++ ["Unknown error code"].
Proof.
  split; [|split].
  - unfold message_table. repeat constructor.
  - reflexivity.
  - intros v. unfold translateErrorCode.
    repeat (destruct (strict_eq v _); [simpl; set_solver|]).
    simpl. set_solver.
Qed.

(** ** Envelope and transport errors, for every operation *)

(** C1: when the reply to an operation's request carries a body whose
    status field is not the string "ok", the operation throws a
    TagiasError whose code is the body's error field; nothing is
    returned. *)
Theorem C1_error_envelope this op net result data status :
  net (request_of this op) = Resolved result →
  getProp result "data" = Some data →
  getProp data "status" = Some status →
  status ≠ JStr "ok" →
  ∃ err, (run (perform this op) net).1 = Throw (TagiasErr err) ∧
         getProp data "error" = Some (code err).
Proof.
  intros Hnet Hdata Hstatus Hne.
  destruct (apiCall_not_ok net [] _ _ _ _ Hnet Hdata Hstatus Hne) as (error & Herr & Hcall).
  exists (TagiasError_new error). split; [|done].
  unfold run. by rewrite (perform_throw _ _ _ _ _ _ Hcall).
Qed.

(** C2: when the request of an operation is rejected with an HTTP 401
    response, the operation throws a TagiasError with the code
    UNAUTHORIZED, whatever the response body holds. *)
Theorem C2_unauthorized this op net e :
  net (request_of this op) = Rejected e →
  http_401 e →
  ∃ err, (run (perform this op) net).1 = Throw (TagiasErr err) ∧
         code err = JStr TagiasErrors.UNAUTHORIZED.
Proof.
  intros Hnet He.
  exists (TagiasError_new (JStr TagiasErrors.UNAUTHORIZED)). split; [|reflexivity].
  unfold run. erewrite perform_throw; [done|].
  apply (apiCall_unauthorized _ _ _ e); [done | by apply is_unauthorized_401].
Qed.

(** C7: when the request of an operation is rejected with an error
    value that is not an HTTP 401 response, the operation throws that
    very value; it is not turned into a TagiasError. *)
Theorem C7_transport_error_propagates this op net e :
  net (request_of this op) = Rejected e →
  e ≠ JUndefined → e ≠ JNull →
  ¬ http_401 e →
  (run (perform this op) net).1 = Throw (Thrown e).
Proof.
  intros Hnet Hu Hn He.
  unfold run. erewrite perform_throw; [done|].
  apply (apiCall_rethrow _ _ _ e); [done | by apply is_unauthorized_other].
Qed.

(** C10: when the body's status is not "ok" and its error field holds a
    value that is none of the twelve enumerated codes (an absent field
    reads as [undefined]), the operation throws a TagiasError that
    keeps this value as its code and has the message
    'Unknown error code'. *)
Theorem C10_unknown_code this op net result data status error :
  net (request_of this op) = Resolved result →
  getProp result "data" = Some data →
  getProp data "status" = Some status →
  status ≠ JStr "ok" →
  getProp data "error" = Some error →
  (∀ c, c ∈ TagiasErrors.all → error ≠ JStr c) →
  (run (perform this op) net).1 =
    Throw (TagiasErr {| message := "Unknown error code"; code := error;
                        name := "TagiasError" |}).
Proof.
  intros Hnet Hdata Hstatus Hne Herror Hunknown.
  destruct (apiCall_not_ok net [] _ _ _ _ Hnet Hdata Hstatus Hne) as (error' & Herr & Hcall).
  assert (error' = error) as -> by congruence.
  unfold run. rewrite (perform_throw _ _ _ _ _ _ Hcall). simpl.
  unfold TagiasError_new. by rewrite translate_unknown.
Qed.

(** ** Construction *)

(** C3: constructing the client with no API key throws a TagiasError
    with the code NOAPIKEY and leaves the log of requests as it was. *)
Theorem C3_no_api_key net log :
  Tagias_constructor None net log =
    (Throw (TagiasErr {| message := "TAGIAS API Key is not provided";
                         code := JStr "NOAPIKEY"; name := "TagiasError" |}), log).
Proof. reflexivity. Qed.

Lemma constructor_empty_key net log :
  Tagias_constructor (Some "") net log =
    (Throw (TagiasErr (TagiasError_new (JStr TagiasErrors.NOAPIKEY))), log).
Proof. reflexivity. Qed.

Lemma constructor_silent key : silent (Tagias_constructor key).
Proof.
  unfold Tagias_constructor. destruct key; [|apply silent_throw].
  destruct (negb _); [apply silent_throw | apply silent_ret].
Qed.

Lemma constructor_headers k this net log log' :
  Tagias_constructor (Some k) net log = (Return this, log') →
  apiKey this = k ∧
  config_headers (instance this) =
    <["Content-Type" := "application/json"]> (<["Authorization" := "Api-Key " +:+ k]> ∅).
Proof.
  unfold Tagias_constructor. destruct (negb _); [discriminate|].
  by intros [= <- _].
Qed.

(** C8: a client built by the constructor issues, for every operation
    and whatever the transport replies, exactly one request; its verb
    and URL are the documented ones, and it carries the Authorization
    header made from the API key and the JSON Content-Type header set
    at construction. *)
Theorem C8_one_request k this net0 log0 log1 op net :
  Tagias_constructor (Some k) net0 log0 = (Return this, log1) →
  ∃ rq, (run (perform this op) net).2 = [rq] ∧
        (method rq, url rq) = endpoint op ∧
        headers rq !! "Authorization" = Some ("Api-Key " +:+ k) ∧
        headers rq !! "Content-Type" = Some "application/json".
Proof.
  intros Hnew. apply constructor_headers in Hnew as [_ Hhs].
  exists (request_of this op). split; [|split].
  - unfold run. by rewrite perform_log.
  - simpl. by destruct (endpoint op).
  - simpl. rewrite Hhs. split; by simplify_map_eq.
Qed.

(** ** Date conversion *)

Lemma alter_Some (f : JsVal → JsVal) k (m : gmap string JsVal) v :
  m !! k = Some v → alter f k m = <[k := f v]> m.
Proof.
  intros H. apply map_eq. intros j. rewrite lookup_alter, lookup_insert.
  case_decide; subst; by rewrite ?H.
Qed.

Lemma alter_fixed (f : JsVal → JsVal) k (m : gmap string JsVal) :
  (∀ v, m !! k = Some v → f v = v) → alter f k m = m.
Proof.
  intros H. apply map_eq. intros j. rewrite lookup_alter.
  case_decide; [subst|done]. destruct (m !! j) eqn:E; simpl; [|done].
  by rewrite H.
Qed.

Lemma date_value_falsy v : truthy v = false → date_value v = v.
Proof. unfold date_value. by intros ->. Qed.

Lemma date_value_truthy v : truthy v = true → date_value v = JDate v.
Proof. unfold date_value. by intros ->. Qed.

Lemma lookup_parse_fields fields (o : gmap string JsVal) k :
  NoDup fields →
  parse_fields fields o !! k =
    if decide (k ∈ fields) then date_value <$> o !! k else o !! k.
Proof.
  unfold parse_fields. revert o.
  induction fields as [|f fields IH]; intros o Hnd.
  - rewrite decide_False; [done | apply not_elem_of_nil].
  - inversion_clear Hnd as [|?? Hf Hnd']. cbn [foldl]. rewrite IH by done.
    rewrite lookup_alter.
    destruct (decide (f = k)) as [->|Hne].
    + rewrite (decide_False (P := k ∈ fields)) by done.
      by rewrite decide_True by set_solver.
    + destruct (decide (k ∈ fields)) as [Hin|Hin].
      * by rewrite decide_True by set_solver.
      * rewrite decide_False; [done|]. by intros [?|?]%elem_of_cons.
Qed.

(** One guarded assignment on the object itself. *)
Lemma parse_date_self field v :
  nullish v = false →
  parse_date None field v = Some (parse_value [field] v).
Proof.
  intros Hv. unfold parse_date.
  destruct v as [| | | | | |o|]; simpl; try done.
  destruct (o !! field) as [x|] eqn:E; simpl.
  - rewrite (alter_Some _ _ _ x) by done. unfold date_value.
    destruct (truthy x); simpl; [done|]. by rewrite insert_id.
  - rewrite alter_fixed; [done|]. intros ?. by rewrite E.
Qed.

(** One guarded assignment on the object held by the property [p]. *)
Lemma parse_date_path p field (d : gmap string JsVal) v :
  d !! p = Some v → nullish v = false →
  parse_date (Some p) field (JObj d) = Some (JObj (<[p := parse_value [field] v]> d)).
Proof.
  intros Hp Hv. unfold parse_date. simpl. rewrite Hp. simpl.
  destruct v as [| | | | | |o|]; simpl; try done;
    try by rewrite insert_id.
  destruct (o !! field) as [x|] eqn:E; simpl.
  - rewrite (alter_Some _ _ _ x) by done. unfold date_value.
    destruct (truthy x); simpl; [done|].
    rewrite (insert_id o field x) by done. by rewrite insert_id.
  - rewrite alter_fixed; [|intros ?; by rewrite E]. by rewrite insert_id.
Qed.

Lemma parse_value_app fs gs v :
  parse_value gs (parse_value fs v) = parse_value (fs ++ gs) v.
Proof. destruct v; simpl; try done. unfold parse_fields. by rewrite foldl_app. Qed.

Lemma parse_value_nullish fs v : nullish (parse_value fs v) = nullish v.
Proof. by destruct v. Qed.

(** *** The callback of [map] *)

Lemma date_callback_item arr field (d : gmap string JsVal) items k item :
  d !! arr = Some (JArr items) →
  items !! k = Some item →
  nullish item = false →
  date_callback arr field item k (JObj d) =
    Some (JObj (<[arr := JArr (<[k := parse_value [field] item]> items)]> d)).
Proof.
  intros Harr Hk Hv. unfold date_callback.
  destruct item as [| | | | | |o|]; simpl; try done;
    try by rewrite list_insert_id, insert_id.
  destruct (o !! field) as [x|] eqn:E; simpl.
  - rewrite (alter_Some _ _ _ x) by done. unfold date_value.
    destruct (truthy x); simpl.
    + by rewrite Harr; simpl; rewrite Hk; simpl.
    + rewrite (insert_id o field x) by done.
      by rewrite list_insert_id, insert_id.
  - rewrite alter_fixed; [|intros ?; by rewrite E].
    by rewrite list_insert_id, insert_id.
Qed.

Lemma visit_app arr cb is1 is2 r r' :
  visit arr cb is1 r = Some r' →
  visit arr cb (is1 ++ is2) r = visit arr cb is2 r'.
Proof.
  revert r. induction is1 as [|i is1 IH]; intros r; simpl; [by intros [= ->]|].
  destruct (getProp r arr) as [a|]; simpl; [|done].
  destruct (getIndex a i) as [it|]; simpl; [|done].
  destruct (cb it i r) as [r1|]; simpl; [|done].
  apply IH.
Qed.

(** Visiting the indices of [todo], which follows the items already
    visited and precedes [rest]. *)
Lemma visit_dates arr field (d : gmap string JsVal) todo rest :
  Forall (λ item, nullish item = false) todo →
  ∀ done,
  visit arr (date_callback arr field) (seq (length done) (length todo))
        (JObj (<[arr := JArr (done ++ todo ++ rest)]> d)) =
    Some (JObj (<[arr := JArr (done ++ (parse_value [field] <$> todo) ++ rest)]> d)).
Proof.
  induction 1 as [|item todo Hitem Htodo IH]; intros done_; simpl.
  - done.
  - rewrite lookup_insert_eq. simpl.
    rewrite list_lookup_middle by done. simpl.
    erewrite date_callback_item; [| apply lookup_insert_eq | by apply list_lookup_middle | done].
    simpl. rewrite insert_insert_eq.
    replace (<[length done_ := parse_value [field] item]> (done_ ++ item :: todo ++ rest))
      with ((done_ ++ [parse_value [field] item]) ++ todo ++ rest); last first.
    { rewrite <- (Nat.add_0_r (length done_)) at 1.
      rewrite insert_app_r. simpl. by rewrite <- app_assoc. }
    specialize (IH (done_ ++ [parse_value [field] item])).
    rewrite length_app in IH. simpl in IH. rewrite Nat.add_1_r in IH.
    rewrite IH. by rewrite <- app_assoc.
Qed.

(** The whole [map] call replaces the array by its converted items. *)
Lemma array_map_dates arr field (d : gmap string JsVal) items :
  d !! arr = Some (JArr items) →
  Forall (λ item, nullish item = false) items →
  array_map arr (date_callback arr field) (JObj d) =
    Some (JObj (<[arr := JArr (parse_value [field] <$> items)]> d)).
Proof.
  intros Harr Hitems. unfold array_map. simpl. rewrite Harr. simpl.
  pose proof (visit_dates arr field d items [] Hitems []) as H. simpl in H.
  rewrite !app_nil_r in H. rewrite insert_id in H by done. done.
Qed.

(** A [null] or [undefined] element makes the callback throw. *)
Lemma array_map_nullish arr field (d : gmap string JsVal) items k item :
  d !! arr = Some (JArr items) →
  items !! k = Some item → nullish item = true →
  Forall (λ item, nullish item = false) (take k items) →
  array_map arr (date_callback arr field) (JObj d) = None.
Proof.
  intros Harr Hk Hnull Hbefore. unfold array_map. simpl. rewrite Harr. simpl.
  assert (length (take k items) = k) as Hlen.
  { apply length_take_le. apply lookup_lt_Some in Hk. lia. }
  rewrite <- (take_drop_middle items k item Hk) at 1.
  rewrite length_app, Hlen, seq_app. simpl.
  pose proof (visit_dates arr field d (take k items) (item :: drop (S k) items)
                Hbefore []) as Hpre.
  simpl in Hpre. rewrite Hlen in Hpre.
  rewrite take_drop_middle in Hpre by done.
  rewrite insert_id in Hpre by done.
  rewrite (visit_app _ _ _ _ _ _ Hpre). simpl.
  rewrite lookup_insert_eq. simpl.
  rewrite list_lookup_middle by (by rewrite length_fmap).
  simpl. unfold date_callback. by destruct item.
Qed.

(** ** Successful replies *)

Lemma apiCall_success net log rq d :
  replies_ok net rq d →
  apiCall (send rq) net log = (Return (JObj d), log ++ [rq]).
Proof.
  intros (result & Hnet & Hdata & Hstatus).
  apply (apiCall_ok _ _ _ result); [done | done |].
  simpl. by rewrite Hstatus.
Qed.

Lemma getPackage_ok this id net d pk :
  replies_ok net (request_of this (OpGetPackage id)) d →
  d !! "package" = Some pk → nullish pk = false →
  run (getPackage this id) net =
    (Return (parse_value package_dates pk), [request_of this (OpGetPackage id)]).
Proof.
  intros Hok Hpk Hnn. unfold run, getPackage.
  erewrite bind_return by (by apply apiCall_success).
  erewrite bind_return; last first.
  { apply liftE_Some. by apply parse_date_path. }
  do 5 (erewrite bind_return; last first;
        [ apply liftE_Some; apply parse_date_path;
          [apply lookup_insert_eq | by rewrite ?parse_value_nullish] |]).
  rewrite !insert_insert_eq. simpl. rewrite lookup_insert_eq. simpl.
  by rewrite !parse_value_app.
Qed.

Lemma getPackages_ok this net d items :
  replies_ok net (request_of this OpGetPackages) d →
  d !! "packages" = Some (JArr items) →
  Forall (λ item, nullish item = false) items →
  run (getPackages this) net =
    (Return (JArr (parse_value ["created"] <$> items)), [request_of this OpGetPackages]).
Proof.
  intros Hok Harr Hitems. unfold run, getPackages.
  erewrite bind_return by (by apply apiCall_success).
  erewrite bind_return; last first.
  { apply liftE_Some. by apply array_map_dates. }
  simpl. by rewrite lookup_insert_eq.
Qed.

(** A [null] entry in the list makes getPackages fail with a TypeError,
    which is why the statements below ask for entries that are not
    [null]. *)
Lemma getPackages_nullish_item this net d items k item :
  replies_ok net (request_of this OpGetPackages) d →
  d !! "packages" = Some (JArr items) →
  items !! k = Some item → nullish item = true →
  Forall (λ item, nullish item = false) (take k items) →
  (run (getPackages this) net).1 = Throw TypeErr.
Proof.
  intros Hok Harr Hk Hnull Hbefore. unfold run, getPackages.
  erewrite bind_return by (by apply apiCall_success).
  by rewrite (array_map_nullish _ _ _ _ _ _ Harr Hk Hnull Hbefore).
Qed.

Lemma getBalance_ok this net d ops :
  replies_ok net (request_of this OpGetBalance) d →
  d !! "operations" = Some (JArr ops) →
  Forall (λ item, nullish item = false) ops →
  run (getBalance this) net =
    (Return (JObj (delete "status"
               (<["operations" := JArr (parse_value ["date"] <$> ops)]> d))),
     [request_of this OpGetBalance]).
Proof.
  intros Hok Harr Hops. unfold run, getBalance.
  erewrite bind_return by (by apply apiCall_success).
  erewrite bind_return; last first.
  { apply liftE_Some. by apply array_map_dates. }
  done.
Qed.

Lemma getResult_ok this id net d :
  replies_ok net (request_of this (OpGetResult id)) d →
  run (getResult this id) net =
    (Return (JObj (delete "status" (parse_fields ["finished"] d))),
     [request_of this (OpGetResult id)]).
Proof.
  intros Hok. unfold run, getResult.
  erewrite bind_return by (by apply apiCall_success).
  erewrite bind_return; last first.
  { apply liftE_Some. by apply (parse_date_self _ (JObj d)). }
  done.
Qed.

Lemma createPackage_ok this n t ds l c b p r net d :
  replies_ok net (request_of this (OpCreatePackage n t ds l c b p r)) d →
  run (createPackage this n t ds l c b p r) net =
    (Return (JObj (<["id" := default JUndefined (d !! "id")]>
                  (<["pictures_num" := default JUndefined (d !! "pictures_num")]> ∅))),
     [request_of this (OpCreatePackage n t ds l c b p r)]).
Proof.
  intros Hok. unfold run, createPackage.
  erewrite bind_return by (by apply (apiCall_success _ _ (request_of this (OpCreatePackage n t ds l c b p r)))).
  done.
Qed.

(** ** What the operations return *)

Lemma NoDup_package_dates : NoDup package_dates.
Proof. unfold package_dates. apply (bool_decide_unpack _). by vm_compute. Qed.

Lemma parse_fields_parsed fields w :
  NoDup fields → dates_parsed fields w (parse_fields fields w).
Proof. intros Hnd k. by apply lookup_parse_fields. Qed.

Lemma parse_value_parsed f item : item_parsed [f] item (parse_value [f] item).
Proof.
  destruct item as [| | | | | |w|]; simpl; try done.
  eexists. split; [done|]. apply parse_fields_parsed, NoDup_singleton.
Qed.

Lemma parse_value_kept f k item : k ≠ f → field_kept k item (parse_value [f] item).
Proof.
  intros Hne. destruct item as [| | | | | |w|]; simpl; try done.
  eexists. split; [done|]. by apply lookup_alter_ne.
Qed.

Lemma items_parsed f items : Forall2 (item_parsed [f]) items (parse_value [f] <$> items).
Proof.
  apply Forall2_fmap_r, Forall_Forall2_diag, Forall_forall.
  intros item _. apply parse_value_parsed.
Qed.

Lemma items_kept f k items :
  k ≠ f → Forall2 (field_kept k) items (parse_value [f] <$> items).
Proof.
  intros Hne. apply Forall2_fmap_r, Forall_Forall2_diag, Forall_forall.
  intros item _. by apply parse_value_kept.
Qed.

(** C4 (amended): on a successful reply, getPackage applies the guarded
    conversion to created, started, stopped, finished, updated and
    delivered of the package, getPackages to created of every package of
    the list, getBalance to date of every operation, and getResult to
    finished of the result: a field that is absent stays absent, a
    field with a truthy wire value becomes the Date made from it, and a
    field with a falsy value (empty string, null) is left as it is. *)
Theorem C4_dates_converted this net :
  (∀ id d pk,
     replies_ok net (request_of this (OpGetPackage id)) d →
     d !! "package" = Some (JObj pk) →
     ∃ out, (run (getPackage this id) net).1 = Return (JObj out) ∧
            dates_parsed package_dates pk out)
  ∧ (∀ d items,
     replies_ok net (request_of this OpGetPackages) d →
     d !! "packages" = Some (JArr items) →
     Forall (λ item, nullish item = false) items →
     ∃ outs, (run (getPackages this) net).1 = Return (JArr outs) ∧
             Forall2 (item_parsed ["created"]) items outs)
  ∧ (∀ d ops,
     replies_ok net (request_of this OpGetBalance) d →
     d !! "operations" = Some (JArr ops) →
     Forall (λ item, nullish item = false) ops →
     ∃ out outs, (run (getBalance this) net).1 = Return (JObj out) ∧
                 out !! "operations" = Some (JArr outs) ∧
                 Forall2 (item_parsed ["date"]) ops outs)
  ∧ (∀ id d,
     replies_ok net (request_of this (OpGetResult id)) d →
     ∃ out, (run (getResult this id) net).1 = Return (JObj out) ∧
            out !! "finished" = date_value <$> d !! "finished").
Proof.
  repeat split.
  - intros id d pk Hok Hpk.
    rewrite (getPackage_ok _ _ _ _ _ Hok Hpk) by done. simpl.
    eexists. split; [done|]. apply parse_fields_parsed, NoDup_package_dates.
  - intros d items Hok Harr Hitems.
    rewrite (getPackages_ok _ _ _ _ Hok Harr Hitems). simpl.
    eexists. split; [done|]. apply items_parsed.
  - intros d ops Hok Harr Hops.
    rewrite (getBalance_ok _ _ _ _ Hok Harr Hops). simpl.
    eexists _, _. split; [done|].
    split; [rewrite lookup_delete_ne by done; apply lookup_insert_eq|].
    apply items_parsed.
  - intros id d Hok.
    rewrite (getResult_ok _ _ _ _ Hok). simpl.
    eexists. split; [done|].
    rewrite lookup_delete_ne by done. apply lookup_alter_eq.
Qed.

(** C5 (amended): getResult and getBalance return the body without its
    top-level status field; getPackages returns the packages array
    alone; the status field of the items themselves (of each package of
    the list, of each operation of the balance) is as received. *)
Theorem C5_status_removed this net :
  (∀ id d,
     replies_ok net (request_of this (OpGetResult id)) d →
     ∃ out, (run (getResult this id) net).1 = Return (JObj out) ∧
            out !! "status" = None)
  ∧ (∀ d ops,
     replies_ok net (request_of this OpGetBalance) d →
     d !! "operations" = Some (JArr ops) →
     Forall (λ item, nullish item = false) ops →
     ∃ out outs, (run (getBalance this) net).1 = Return (JObj out) ∧
                 out !! "status" = None ∧
                 out !! "operations" = Some (JArr outs) ∧
                 Forall2 (field_kept "status") ops outs)
  ∧ (∀ d items,
     replies_ok net (request_of this OpGetPackages) d →
     d !! "packages" = Some (JArr items) →
     Forall (λ item, nullish item = false) items →
     ∃ outs, (run (getPackages this) net).1 = Return (JArr outs) ∧
             Forall2 (field_kept "status") items outs).
Proof.
  repeat split.
  - intros id d Hok.
    rewrite (getResult_ok _ _ _ _ Hok). simpl.
    eexists. split; [done|]. apply lookup_delete_eq.
  - intros d ops Hok Harr Hops.
    rewrite (getBalance_ok _ _ _ _ Hok Harr Hops). simpl.
    eexists _, _. split; [done|]. split; [apply lookup_delete_eq|].
    split; [rewrite lookup_delete_ne by done; apply lookup_insert_eq|].
    by apply items_kept.
  - intros d items Hok Harr Hitems.
    rewrite (getPackages_ok _ _ _ _ Hok Harr Hitems). simpl.
    eexists. split; [done|]. by apply items_kept.
Qed.

(** C6 (amended): createPackage posts to the packages URL a body with
    exactly the properties name, type, descr, labels, callback, baseurl,
    pictures and labels_required, each holding the argument given,
    where labels_required holds null when the caller leaves it out; on
    a successful reply it returns an object with exactly the properties
    id and pictures_num, read from the body. *)
Theorem C6_create_package this n t ds l c b p r net :
  (∃ data,
     (run (createPackage this n t ds l c b p r) net).2 =
       [{| method := POST; url := TAGIAS_URL +:+ "/packages";
           headers := config_headers (instance this);
           body := Some (JObj data) |}] ∧
     dom data = {["name"; "type"; "descr"; "labels"; "callback"; "baseurl";
                  "pictures"; "labels_required"]} ∧
     data !! "name" = Some n ∧ data !! "type" = Some t ∧
     data !! "descr" = Some ds ∧ data !! "labels" = Some l ∧
     data !! "callback" = Some c ∧ data !! "baseurl" = Some b ∧
     data !! "pictures" = Some p ∧
     data !! "labels_required" = Some (match r with JUndefined => JNull | _ => r end))
  ∧ (∀ d,
     replies_ok net (request_of this (OpCreatePackage n t ds l c b p r)) d →
     ∃ out, (run (createPackage this n t ds l c b p r) net).1 = Return (JObj out) ∧
            dom out = {["id"; "pictures_num"]} ∧
            out !! "id" = Some (default JUndefined (d !! "id")) ∧
            out !! "pictures_num" = Some (default JUndefined (d !! "pictures_num"))).
Proof.
  split.
  - eexists. split.
    { unfold run.
      etrans; [apply (perform_log this (OpCreatePackage n t ds l c b p r))|].
      reflexivity. }
    split; [rewrite !dom_insert_L, dom_empty_L; set_solver|].
    repeat split; by simplify_map_eq.
  - intros d Hok. rewrite (createPackage_ok _ _ _ _ _ _ _ _ _ _ _ Hok). simpl.
    eexists. split; [done|].
    split; [rewrite !dom_insert_L, dom_empty_L; set_solver|].
    split; by simplify_map_eq.
Qed.

(** ** The statements on sample traffic *)

Lemma respond_ok rq d :
  d !! "status" = Some (JStr "ok") → replies_ok (respond d) rq d.
Proof. intros H. eexists. split; [reflexivity|]. split; [reflexivity | exact H]. Defined.

Lemma C1_witness :
  ∃ err, (run (perform sample_client OpGetBalance) (respond error_envelope)).1
           = Throw (TagiasErr err) ∧
         getProp (JObj error_envelope) "error" = Some (code err).
Proof.
  apply (C1_error_envelope sample_client OpGetBalance (respond error_envelope)
           (response_of error_envelope) (JObj error_envelope) (JStr "error"));
    [reflexivity | reflexivity | reflexivity | discriminate].
Defined.

Lemma C2_witness :
  ∃ err, (run (perform sample_client (OpGetPackage "p1"))
              (reject (JObj unauthorized_error))).1 = Throw (TagiasErr err) ∧
         code err = JStr TagiasErrors.UNAUTHORIZED.
Proof.
  apply (C2_unauthorized sample_client (OpGetPackage "p1")
           (reject (JObj unauthorized_error)) (JObj unauthorized_error));
    [reflexivity|].
  exists unauthorized_error, unauthorized_response.
  repeat split; reflexivity.
Defined.

Lemma C7_witness :
  (run (perform sample_client (OpRequestResult "p1")) (reject (JObj network_error))).1
    = Throw (Thrown (JObj network_error)).
Proof.
  apply (C7_transport_error_propagates sample_client (OpRequestResult "p1")
           (reject (JObj network_error)) (JObj network_error));
    [reflexivity | discriminate | discriminate |].
  intros (o & resp & Ho & _ & Hresp & _).
  injection Ho as <-. vm_compute in Hresp. discriminate.
Defined.

Lemma C8_witness :
  ∃ rq, (run (perform sample_client (OpSetPackageStatus "p1" (JStr "STOPPED")))
             (respond error_envelope)).2 = [rq] ∧
        (method rq, url rq) = endpoint (OpSetPackageStatus "p1" (JStr "STOPPED")) ∧
        headers rq !! "Authorization" = Some ("Api-Key " +:+ "test") ∧
        headers rq !! "Content-Type" = Some "application/json".
Proof.
  apply (C8_one_request "test" sample_client (respond error_envelope) [] []).
  reflexivity.
Defined.

Lemma C10_witness :
  (run (perform sample_client OpGetPackages) (respond bare_error_envelope)).1 =
    Throw (TagiasErr {| message := "Unknown error code"; code := JUndefined;
                        name := "TagiasError" |}).
Proof.
  apply (C10_unknown_code sample_client OpGetPackages (respond bare_error_envelope)
           (response_of bare_error_envelope) (JObj bare_error_envelope)
           (JStr "error") JUndefined);
    [reflexivity | reflexivity | reflexivity | discriminate | reflexivity |].
  intros c _. discriminate.
Defined.

Lemma C4_witness :
  (∃ out, (run (getPackage sample_client "p1") (respond package_envelope)).1
            = Return (JObj out) ∧
          dates_parsed package_dates first_package out)
  ∧ (∃ outs, (run (getPackages sample_client) (respond list_envelope)).1
               = Return (JArr outs) ∧
             Forall2 (item_parsed ["created"])
                     [JObj first_package; JObj second_package] outs)
  ∧ (∃ out outs, (run (getBalance sample_client) (respond balance_envelope)).1
                   = Return (JObj out) ∧
                 out !! "operations" = Some (JArr outs) ∧
                 Forall2 (item_parsed ["date"]) [JObj deposit] outs)
  ∧ (∃ out, (run (getResult sample_client "p2") (respond result_envelope)).1
              = Return (JObj out) ∧
            out !! "finished" = date_value <$> result_envelope !! "finished").
Proof.
  split; [|split; [|split]].
  - apply (proj1 (C4_dates_converted sample_client (respond package_envelope))
             "p1" package_envelope first_package);
      [apply respond_ok; reflexivity | reflexivity].
  - apply (proj1 (proj2 (C4_dates_converted sample_client (respond list_envelope)))
             list_envelope);
      [apply respond_ok; reflexivity | reflexivity | repeat constructor].
  - apply (proj1 (proj2 (proj2 (C4_dates_converted sample_client (respond balance_envelope))))
             balance_envelope);
      [apply respond_ok; reflexivity | reflexivity | repeat constructor].
  - apply (proj2 (proj2 (proj2 (C4_dates_converted sample_client (respond result_envelope))))
             "p2" result_envelope).
    apply respond_ok; reflexivity.
Defined.

(** On these replies getPackage returns the package with its created
    property still the empty string, and getPackages returns the second
    package with its started property still the wire string. *)
Lemma C4_counterexample :
  (run (getPackage sample_client "p1") (respond blank_envelope)).1
    = Return (JObj blank_package)
  ∧ blank_package !! "created" = Some (JStr "")
  ∧ ∃ first second,
      (run (getPackages sample_client) (respond list_envelope)).1
        = Return (JArr [first; JObj second]) ∧
      second_package !! "started" = Some (JStr "2021-03-02T08:30:00.000Z") ∧
      second !! "started" = Some (JStr "2021-03-02T08:30:00.000Z").
Proof.
  split; [|split].
  - vm_compute. reflexivity.
  - reflexivity.
  - eexists _, _. split; [vm_compute; reflexivity|]. split; reflexivity.
Qed.

Lemma C5_witness :
  (∃ out, (run (getResult sample_client "p2") (respond result_envelope)).1
            = Return (JObj out) ∧
          out !! "status" = None)
  ∧ (∃ out outs, (run (getBalance sample_client) (respond balance_envelope)).1
                   = Return (JObj out) ∧
                 out !! "status" = None ∧
                 out !! "operations" = Some (JArr outs) ∧
                 Forall2 (field_kept "status") [JObj deposit] outs)
  ∧ (∃ outs, (run (getPackages sample_client) (respond list_envelope)).1
               = Return (JArr outs) ∧
             Forall2 (field_kept "status")
                     [JObj first_package; JObj second_package] outs).
Proof.
  split; [|split].
  - apply (proj1 (C5_status_removed sample_client (respond result_envelope))
             "p2" result_envelope).
    apply respond_ok; reflexivity.
  - apply (proj1 (proj2 (C5_status_removed sample_client (respond balance_envelope)))
             balance_envelope);
      [apply respond_ok; reflexivity | reflexivity | repeat constructor].
  - apply (proj2 (proj2 (C5_status_removed sample_client (respond list_envelope)))
             list_envelope);
      [apply respond_ok; reflexivity | reflexivity | repeat constructor].
Defined.

(** The packages getPackages returns for the sample list still carry
    their status properties. *)
Lemma C5_counterexample :
  ∃ outs, (run (getPackages sample_client) (respond list_envelope)).1
            = Return (JArr outs) ∧
          (λ item, getProp item "status") <$> outs
            = [Some (JStr "ACTIVE"); Some (JStr "FINISHED")].
Proof.
  eexists. split; [vm_compute; reflexivity|]. reflexivity.
Qed.

Lemma C6_witness :
  ∃ out, (run sample_create (respond create_envelope)).1 = Return (JObj out) ∧
         dom out = {["id"; "pictures_num"]} ∧
         out !! "id" = Some (default JUndefined (create_envelope !! "id")) ∧
         out !! "pictures_num" =
           Some (default JUndefined (create_envelope !! "pictures_num")).
Proof.
  apply (proj2 (C6_create_package sample_client (JStr "Test package") (JStr "Keypoints")
           (JStr "Put one point only in the center of the image") JNull JNull
           (JStr "https://p.tagias.com/samples/")
           (JArr [JStr "dog.8001.jpg"; JStr "dog.8002.jpg"; JStr "dog.8003.jpg"])
           JUndefined (respond create_envelope)) create_envelope).
  apply respond_ok; reflexivity.
Defined.

(** The body test.js posts has a labels_required property, holding
    null. *)
Lemma C6_counterexample :
  ∃ data, body <$> (run sample_create (respond create_envelope)).2 = [Some (JObj data)] ∧
          data !! "labels_required" = Some JNull ∧
          "labels_required" ∈ dom data.
Proof.
  unfold run, sample_create.
  pose proof (perform_log sample_client
    (OpCreatePackage (JStr "Test package") (JStr "Keypoints")
       (JStr "Put one point only in the center of the image") JNull JNull
       (JStr "https://p.tagias.com/samples/")
       (JArr [JStr "dog.8001.jpg"; JStr "dog.8002.jpg"; JStr "dog.8003.jpg"])
       JUndefined) (respond create_envelope) []) as Hlog.
  simpl in Hlog. rewrite Hlog. simpl.
  eexists. split; [reflexivity|]. split; [by simplify_map_eq|].
  apply elem_of_dom. eexists. by simplify_map_eq.
Qed.

(** * Further properties of the client *)

(** ** Inversion of the monad's steps *)

Lemma bind_return_inv {A B} (c : Comp A) (f : A → Comp B) net log b log' :
  (c ≫= f) net log = (Return b, log') →
  ∃ a log1, c net log = (Return a, log1) ∧ f a net log1 = (Return b, log').
Proof.
  unfold mbind, Comp_bind.
  destruct (c net log) as [[a|e] log1]; [eauto | discriminate].
Qed.

Lemma liftE_return_inv {A} (o : option A) a net log log' :
  liftE o net log = (Return a, log') → o = Some a.
Proof. destruct o; simpl; [by intros [= -> _] | discriminate]. Qed.

Lemma liftE_None {A} (o : option A) net log :
  o = None → liftE o net log = (Throw TypeErr, log).
Proof. by intros ->. Qed.

Lemma apiCall_catch_throws e net log : ∃ e', (apiCall_catch e net log).1 = Throw e'.
Proof.
  destruct e as [err| |v]; simpl; try by eexists.
  unfold mbind, Comp_bind. destruct (is_unauthorized v) as [[]|]; simpl; by eexists.
Qed.

(** apiCall returns only the body of a resolved response whose status
    field is the string "ok". *)
Lemma apiCall_return_inv net log rq data log' :
  apiCall (send rq) net log = (Return data, log') →
  ∃ result, net rq = Resolved result ∧
            getProp result "data" = Some data ∧
            getProp data "status" = Some (JStr "ok").
Proof.
  unfold apiCall. intros H.
  apply bind_return_inv in H as (result & log1 & Htry & H).
  apply bind_return_inv in H as (data' & log2 & Hdata & H).
  apply bind_return_inv in H as (status & log3 & Hstatus & H).
  apply liftE_return_inv in Hdata. apply liftE_return_inv in Hstatus.
  destruct (strict_eq status (JStr "ok")) eqn:Hok; simpl in H.
  - injection H as <- _. apply strict_eq_str_true in Hok as ->.
    exists result. split; [|done].
    unfold try_catch, send in Htry. destruct (net rq) as [r|e]; [by injection Htry as <- _|].
    destruct (apiCall_catch_throws (Thrown e) net (log ++ [rq])) as [e' He'].
    rewrite Htry in He'. discriminate.
  - unfold mbind, Comp_bind in H.
    destruct (liftE (getProp data' "error") net log3) as [[?|?] ?]; discriminate.
Qed.

Lemma ok_body_is_object data :
  getProp data "status" = Some (JStr "ok") →
  ∃ d, data = JObj d ∧ d !! "status" = Some (JStr "ok").
Proof.
  destruct data as [| | | | | |d|]; simpl; try discriminate.
  destruct (d !! "status") eqn:E; simpl; [|discriminate].
  intros [= ->]. eauto.
Qed.

Lemma perform_return_inv this op net log v log' :
  perform this op net log = (Return v, log') →
  ∃ data log1, apiCall (send (request_of this op)) net log = (Return data, log1).
Proof.
  intros H. destruct op; simpl in H;
    apply bind_return_inv in H as (data & log1 & H & _); eauto.
Qed.

Lemma apiCall_reject_type_error net log rq e :
  net rq = Rejected e → is_unauthorized e = None →
  apiCall (send rq) net log = (Throw TypeErr, log ++ [rq]).
Proof.
  intros Hnet He. apply bind_throw.
  unfold try_catch, send. rewrite Hnet. simpl.
  unfold mbind, Comp_bind. by rewrite (liftE_None _ _ _ He).
Qed.

Lemma apiCall_null_body net log rq result data :
  net rq = Resolved result →
  getProp result "data" = Some data → nullish data = true →
  apiCall (send rq) net log = (Throw TypeErr, log ++ [rq]).
Proof.
  intros Hnet Hdata Hnull. unfold apiCall.
  erewrite bind_return; last first.
  { unfold try_catch, send. by rewrite Hnet. }
  erewrite bind_return by (by apply liftE_Some).
  apply bind_throw. apply liftE_None. by destruct data.
Qed.

(** ** When an operation returns, and what it throws on a rejection *)

Lemma returns_only_on_ok_aux this op net v :
  (run (perform this op) net).1 = Return v →
  ∃ d, replies_ok net (request_of this op) d.
Proof.
  unfold run. destruct (perform this op net []) as [r log'] eqn:H. simpl.
  intros ->.
  apply perform_return_inv in H as (data & log1 & H).
  apply apiCall_return_inv in H as (result & Hnet & Hdata & Hstatus).
  apply ok_body_is_object in Hstatus as (d & -> & Hd).
  exists d, result. done.
Qed.

(** X1: an operation returns a value only if its request was resolved
    with a response whose body is an object with the status "ok". *)
Theorem returns_only_on_ok this op net v :
  (run (perform this op) net).1 = Return v →
  ∃ d, replies_ok net (request_of this op) d.
Proof.
  unfold run. destruct (perform this op net []) as [r log'] eqn:H. simpl.
  intros ->.
  apply perform_return_inv in H as (data & log1 & H).
  apply apiCall_return_inv in H as (result & Hnet & Hdata & Hstatus).
  apply ok_body_is_object in Hstatus as (d & -> & Hd).
  by exists d, result.
Qed.

Lemma returns_only_on_ok_witness :
  ∃ d, replies_ok (respond create_envelope)
         (request_of sample_client (OpRequestResult "p1")) d.
Proof.
  apply (returns_only_on_ok sample_client (OpRequestResult "p1")
           (respond create_envelope) JUndefined).
  reflexivity.
Defined.

Lemma type_errors_only_ret {A} (a : A) : type_errors_only (mret a).
Proof. intros net log e log'. discriminate. Qed.

Lemma type_errors_only_liftE {A} (o : option A) : type_errors_only (liftE o).
Proof. intros net log e log'. destruct o; simpl; [discriminate | by intros [= <- _]]. Qed.

Lemma type_errors_only_bind {A B} (c : Comp A) (f : A → Comp B) :
  type_errors_only c → (∀ a, type_errors_only (f a)) → type_errors_only (c ≫= f).
Proof.
  intros Hc Hf net log e log'. unfold mbind, Comp_bind.
  destruct (c net log) as [[a|e'] l1] eqn:E.
  - apply Hf.
  - intros [= <- <-]. by apply (Hc _ _ _ _ E).
Qed.

Ltac type_errors_tac :=
  repeat first
    [ apply type_errors_only_ret | apply type_errors_only_liftE
    | apply type_errors_only_bind; [| intros ?] ].

(** What apiCall throws, by the reply to its request. *)
Lemma apiCall_throw_inv net log rq e log' :
  apiCall (send rq) net log = (Throw e, log') →
  match net rq with
  | Rejected v =>
      (is_unauthorized v = Some true ∧
       e = TagiasErr (TagiasError_new (JStr TagiasErrors.UNAUTHORIZED)))
      ∨ (is_unauthorized v = Some false ∧ e = Thrown v)
      ∨ (is_unauthorized v = None ∧ e = TypeErr)
  | Resolved result =>
      e = TypeErr
      ∨ ∃ data status error,
          getProp result "data" = Some data ∧
          getProp data "status" = Some status ∧
          status ≠ JStr "ok" ∧
          getProp data "error" = Some error ∧
          e = TagiasErr (TagiasError_new error)
  end.
Proof.
  intros H. destruct (net rq) as [result|v] eqn:Hnet.
  - destruct (getProp result "data") as [data|] eqn:Hdata.
    + destruct (getProp data "status") as [status|] eqn:Hstatus.
      * destruct (strict_eq status (JStr "ok")) eqn:Hok.
        { apply strict_eq_str_true in Hok as ->.
          rewrite (apiCall_ok _ _ _ _ _ Hnet Hdata Hstatus) in H. discriminate. }
        assert (status ≠ JStr "ok") as Hne.
        { intros ->. vm_compute in Hok. discriminate. }
        destruct (apiCall_not_ok net log _ _ _ _ Hnet Hdata Hstatus Hne)
          as (error & Herr & Hcall).
        rewrite Hcall in H. injection H as <- _. right. eauto 10.
      * left. unfold apiCall in H.
        erewrite bind_return in H; last first.
        { unfold try_catch, send. by rewrite Hnet. }
        erewrite bind_return in H by (by apply liftE_Some).
        erewrite bind_throw in H by (by apply liftE_None). by injection H as <- _.
    + left. unfold apiCall in H.
      erewrite bind_return in H; last first.
      { unfold try_catch, send. by rewrite Hnet. }
      erewrite bind_throw in H by (by apply liftE_None). by injection H as <- _.
  - destruct (is_unauthorized v) as [[]|] eqn:He.
    + rewrite (apiCall_unauthorized _ _ _ _ Hnet He) in H. injection H as <- _. eauto.
    + rewrite (apiCall_rethrow _ _ _ _ Hnet He) in H. injection H as <- _. eauto.
    + rewrite (apiCall_reject_type_error _ _ _ _ Hnet He) in H. injection H as <- _. eauto.
Qed.

(** What an operation throws is thrown by apiCall, or is a TypeError of
    the steps that follow it. *)
Lemma perform_throw_inv this op net log e log' :
  perform this op net log = (Throw e, log') →
  apiCall (send (request_of this op)) net log = (Throw e, log') ∨ e = TypeErr.
Proof.
  intros H.
  assert (∀ (f : JsVal → Comp JsVal),
    (∀ a, type_errors_only (f a)) →
    (apiCall (send (request_of this op)) ≫= f) net log = (Throw e, log') →
    apiCall (send (request_of this op)) net log = (Throw e, log') ∨ e = TypeErr) as Hbind.
  { intros f Hf. unfold mbind, Comp_bind.
    destruct (apiCall (send (request_of this op)) net log) as [[a|e'] l1].
    - intros Hfa. right. by apply (Hf _ _ _ _ _ Hfa).
    - intros [= <- <-]. by left. }
  destruct op; simpl in H; (eapply Hbind; [|exact H]); intros; type_errors_tac.
Qed.

Lemma is_unauthorized_nullish e : is_unauthorized e = None ↔ nullish e = true.
Proof.
  split.
  - intros H. destruct e as [| | | | | |o|]; try done; exfalso.
    unfold is_unauthorized in H. simpl in H.
    destruct (strict_eq _ _); [|done].
    destruct (default JUndefined (o !! "response")) as [| |b| | | | |];
      simpl in *; try done; try (by destruct b); by destruct (negb _).
  - by destruct e.
Qed.

(** X2: an operation throws a TagiasError in two situations only: its
    request was rejected with an HTTP 401 axios error, and the error is
    the UNAUTHORIZED one; or its request was resolved with a body whose
    status is not "ok", and the code of the error is the error field of
    that body.  No other rejection is given a code of the taxonomy,
    even if its response holds an error envelope. *)
Theorem tagias_error_origin this op net err :
  (run (perform this op) net).1 = Throw (TagiasErr err) →
  (∃ e, net (request_of this op) = Rejected e ∧ http_401 e ∧
        err = TagiasError_new (JStr TagiasErrors.UNAUTHORIZED))
  ∨ (∃ result data status error,
       net (request_of this op) = Resolved result ∧
       getProp result "data" = Some data ∧
       getProp data "status" = Some status ∧
       status ≠ JStr "ok" ∧
       getProp data "error" = Some error ∧
       err = TagiasError_new error).
Proof.
  unfold run. destruct (perform this op net []) as [r l] eqn:H. simpl. intros ->.
  apply perform_throw_inv in H as [H|H]; [|discriminate].
  apply apiCall_throw_inv in H.
  destruct (net (request_of this op)) as [result|v].
  - destruct H as [H | (data & status & error & Hdata & Hstatus & Hne & Herr & [= ->])];
      [discriminate|].
    right. eauto 10.
  - destruct H as [[He [= ->]] | [[_ H] | [_ H]]]; try discriminate.
    left. exists v. split; [done|]. split; [by apply is_unauthorized_true | done].
Qed.

Lemma tagias_error_origin_witness :
  (∃ e, respond error_envelope (request_of sample_client OpGetBalance) = Rejected e ∧
        http_401 e ∧
        TagiasError_new (JStr "NOTFOUND") =
          TagiasError_new (JStr TagiasErrors.UNAUTHORIZED))
  ∨ (∃ result data status error,
       respond error_envelope (request_of sample_client OpGetBalance) = Resolved result ∧
       getProp result "data" = Some data ∧
       getProp data "status" = Some status ∧
       status ≠ JStr "ok" ∧
       getProp data "error" = Some error ∧
       TagiasError_new (JStr "NOTFOUND") = TagiasError_new error).
Proof.
  apply (tagias_error_origin sample_client OpGetBalance (respond error_envelope)
           (TagiasError_new (JStr "NOTFOUND"))).
  reflexivity.
Defined.

(** X16: the only value an operation rethrows is the one its request
    was rejected with, and it does so only when that value is not an
    HTTP 401 axios error. *)
Theorem rethrown_origin this op net e :
  (run (perform this op) net).1 = Throw (Thrown e) →
  net (request_of this op) = Rejected e ∧ nullish e = false ∧ ¬ http_401 e.
Proof.
  unfold run. destruct (perform this op net []) as [r l] eqn:H. simpl. intros ->.
  apply perform_throw_inv in H as [H|H]; [|discriminate].
  apply apiCall_throw_inv in H.
  destruct (net (request_of this op)) as [result|v].
  - destruct H as [H | (data & status & error & _ & _ & _ & _ & H)]; discriminate.
  - destruct H as [[_ H] | [[He [= <-]] | [_ H]]]; try discriminate.
    split; [done|]. split.
    + destruct (nullish e) eqn:Hn; [|done].
      apply is_unauthorized_nullish in Hn. congruence.
    + intros H401. apply is_unauthorized_401 in H401. congruence.
Qed.

Lemma rethrown_origin_witness :
  reject (JObj network_error) (request_of sample_client OpGetPackages)
    = Rejected (JObj network_error) ∧
  nullish (JObj network_error) = false ∧ ¬ http_401 (JObj network_error).
Proof.
  apply (rethrown_origin sample_client OpGetPackages (reject (JObj network_error))).
  reflexivity.
Defined.

(** X17: when the request is rejected with [undefined] or [null], every
    operation throws a TypeError (the catch block reads a property of
    the rejection value) instead of rethrowing. *)
Theorem nullish_rejection_type_error this op net e :
  net (request_of this op) = Rejected e →
  nullish e = true →
  (run (perform this op) net).1 = Throw TypeErr.
Proof.
  intros Hnet Hnull. unfold run.
  apply is_unauthorized_nullish in Hnull.
  by erewrite perform_throw by (by apply (apiCall_reject_type_error _ _ _ e)).
Qed.

Lemma nullish_rejection_type_error_witness :
  (run (perform sample_client OpGetBalance) (reject JUndefined)).1 = Throw TypeErr.
Proof.
  apply (nullish_rejection_type_error sample_client OpGetBalance (reject JUndefined)
           JUndefined);
    reflexivity.
Defined.

(** X3: when the response body is null or missing, every operation
    throws a TypeError (reading the status of the body fails); it
    neither returns nor throws a TagiasError. *)
Theorem null_body_type_error this op net result data :
  net (request_of this op) = Resolved result →
  getProp result "data" = Some data →
  nullish data = true →
  (run (perform this op) net).1 = Throw TypeErr.
Proof.
  intros Hnet Hdata Hnull. unfold run.
  by erewrite perform_throw by (by apply (apiCall_null_body _ _ _ result data)).
Qed.

Lemma null_body_type_error_witness :
  (run (perform sample_client (OpGetResult "p2")) (λ _, Resolved null_body_response)).1
    = Throw TypeErr.
Proof.
  apply (null_body_type_error sample_client (OpGetResult "p2")
           (λ _, Resolved null_body_response) null_body_response JNull);
    reflexivity.
Defined.

(** X4: setPackageStatus and requestResult return [undefined], and they
    do so exactly when the reply is a body with the status "ok": the
    rest of the body is dropped, and no other value is ever returned. *)
Theorem void_operations this id status net v :
  ((run (setPackageStatus this id status) net).1 = Return v ↔
     v = JUndefined ∧
     ∃ d, replies_ok net (request_of this (OpSetPackageStatus id status)) d)
  ∧ ((run (requestResult this id) net).1 = Return v ↔
     v = JUndefined ∧ ∃ d, replies_ok net (request_of this (OpRequestResult id)) d).
Proof.
  split; split.
  - intros H. split.
    + unfold run in H.
      destruct (setPackageStatus this id status net []) as [r log'] eqn:E.
      simpl in H. subst r. unfold setPackageStatus in E.
      apply bind_return_inv in E as (? & ? & _ & E). by injection E as <- _.
    + by apply (returns_only_on_ok_aux this (OpSetPackageStatus id status) net v).
  - intros (-> & d & Hok). unfold run, setPackageStatus.
    by erewrite bind_return
      by (by apply (apiCall_success _ _ (request_of this (OpSetPackageStatus id status)) d)).
  - intros H. split.
    + unfold run in H.
      destruct (requestResult this id net []) as [r log'] eqn:E.
      simpl in H. subst r. unfold requestResult in E.
      apply bind_return_inv in E as (? & ? & _ & E). by injection E as <- _.
    + by apply (returns_only_on_ok_aux this (OpRequestResult id) net v).
  - intros (-> & d & Hok). unfold run, requestResult.
    by erewrite bind_return
      by (by apply (apiCall_success _ _ (request_of this (OpRequestResult id)) d)).
Qed.

Lemma void_operations_witness :
  (run (setPackageStatus sample_client "p1" (JStr TagiasStatuses.STOPPED))
       (respond create_envelope)).1 = Return JUndefined
  ∧ (run (requestResult sample_client "p1") (respond create_envelope)).1 = Return JUndefined.
Proof.
  split.
  - apply (proj1 (void_operations sample_client "p1" (JStr TagiasStatuses.STOPPED)
                    (respond create_envelope) JUndefined)).
    split; [reflexivity|]. exists create_envelope. apply respond_ok. reflexivity.
  - apply (proj2 (void_operations sample_client "p1" (JStr TagiasStatuses.STOPPED)
                    (respond create_envelope) JUndefined)).
    split; [reflexivity|]. exists create_envelope. apply respond_ok. reflexivity.
Defined.

(** ** The constructor *)

(** X5: the constructor never issues a request; it builds a client for
    every non-empty key, storing the key and exactly the two headers, and
    it throws the NOAPIKEY error for the empty string as it does for a
    missing key. *)
Theorem constructor_cases key net log :
  (Tagias_constructor key net log).2 = log ∧
  ((∃ k this, key = Some k ∧ k ≠ "" ∧
              (Tagias_constructor key net log).1 = Return this ∧
              apiKey this = k ∧
              dom (config_headers (instance this)) = {["Content-Type"; "Authorization"]})
   ∨ ((key = None ∨ key = Some "") ∧
      (Tagias_constructor key net log).1 =
        Throw (TagiasErr (TagiasError_new (JStr TagiasErrors.NOAPIKEY))))).
Proof.
  split; [apply constructor_silent|].
  destruct key as [k|]; [|right; eauto].
  destruct (decide (k = "")) as [->|Hk]; [right; eauto|].
  left. unfold Tagias_constructor. simpl.
  apply String.eqb_neq in Hk. rewrite Hk. simpl.
  eexists k, _. split; [done|]. split; [by apply String.eqb_neq|].
  split; [reflexivity|]. split; [reflexivity|].
  simpl. rewrite !dom_insert_L, dom_empty_L. set_solver.
Qed.

(** ** Replies without the expected payload *)

Lemma array_map_not_array arr cb (d : gmap string JsVal) :
  (∀ items, d !! arr ≠ Some (JArr items)) → array_map arr cb (JObj d) = None.
Proof.
  intros H. unfold array_map. simpl.
  destruct (d !! arr) as [[| | | | |items| |]|] eqn:E; simpl; try done.
  by destruct (H items).
Qed.

Lemma first_nullish items :
  Exists (λ item, nullish item = true) items →
  ∃ k item, items !! k = Some item ∧ nullish item = true ∧
            Forall (λ item, nullish item = false) (take k items).
Proof.
  induction items as [|x items IH]; intros H; [by apply Exists_nil in H|].
  destruct (nullish x) eqn:Hx.
  - exists 0, x. by repeat split.
  - apply Exists_cons in H as [H|H]; [congruence|].
    destruct (IH H) as (k & item & Hk & Hnull & Hbefore).
    exists (S k), item. repeat split; [done | done |].
    simpl. by constructor.
Qed.

(** X6: a successful reply to getPackage whose body has no package
    (the property is missing or null) makes getPackage throw a
    TypeError. *)
Theorem getPackage_without_package this id net d :
  replies_ok net (request_of this (OpGetPackage id)) d →
  nullish (default JUndefined (d !! "package")) = true →
  (run (getPackage this id) net).1 = Throw TypeErr.
Proof.
  intros Hok Hnull. unfold run, getPackage.
  erewrite bind_return by (by apply apiCall_success).
  erewrite bind_throw; [done|]. apply liftE_None.
  unfold parse_date. simpl.
  by destruct (default JUndefined (d !! "package")).
Qed.

Lemma getPackage_without_package_witness :
  (run (getPackage sample_client "p3") (respond create_envelope)).1 = Throw TypeErr.
Proof.
  apply (getPackage_without_package sample_client "p3" (respond create_envelope)
           create_envelope);
    [apply respond_ok; reflexivity | reflexivity].
Defined.

(** X7: a successful reply whose body holds no array of packages makes
    getPackages throw a TypeError, and one that holds no array of
    operations makes getBalance throw a TypeError. *)
Theorem list_not_array this net d :
  (replies_ok net (request_of this OpGetPackages) d →
   (∀ items, d !! "packages" ≠ Some (JArr items)) →
   (run (getPackages this) net).1 = Throw TypeErr)
  ∧ (replies_ok net (request_of this OpGetBalance) d →
     (∀ items, d !! "operations" ≠ Some (JArr items)) →
     (run (getBalance this) net).1 = Throw TypeErr).
Proof.
  split; intros Hok Hno.
  - unfold run, getPackages.
    erewrite bind_return by (by apply apiCall_success).
    erewrite bind_throw; [done|]. by apply liftE_None, array_map_not_array.
  - unfold run, getBalance.
    erewrite bind_return by (by apply apiCall_success).
    erewrite bind_throw; [done|]. by apply liftE_None, array_map_not_array.
Qed.

Lemma list_not_array_witness :
  (run (getPackages sample_client) (respond create_envelope)).1 = Throw TypeErr
  ∧ (run (getBalance sample_client) (respond create_envelope)).1 = Throw TypeErr.
Proof.
  split.
  - apply (proj1 (list_not_array sample_client (respond create_envelope) create_envelope));
      [apply respond_ok; reflexivity | intros items; discriminate].
  - apply (proj2 (list_not_array sample_client (respond create_envelope) create_envelope));
      [apply respond_ok; reflexivity | intros items; discriminate].
Defined.

(** X8: a null entry anywhere in the list of packages makes getPackages
    throw a TypeError, and a null entry in the list of operations makes
    getBalance throw one: no partly converted list is returned. *)
Theorem null_item_type_error this net d items :
  Exists (λ item, nullish item = true) items →
  (replies_ok net (request_of this OpGetPackages) d →
   d !! "packages" = Some (JArr items) →
   (run (getPackages this) net).1 = Throw TypeErr)
  ∧ (replies_ok net (request_of this OpGetBalance) d →
     d !! "operations" = Some (JArr items) →
     (run (getBalance this) net).1 = Throw TypeErr).
Proof.
  intros (k & item & Hk & Hnull & Hbefore)%first_nullish.
  split; intros Hok Harr.
  - unfold run, getPackages.
    erewrite bind_return by (by apply apiCall_success).
    by rewrite (array_map_nullish _ _ _ _ _ _ Harr Hk Hnull Hbefore).
  - unfold run, getBalance.
    erewrite bind_return by (by apply apiCall_success).
    by rewrite (array_map_nullish _ _ _ _ _ _ Harr Hk Hnull Hbefore).
Qed.

Lemma null_item_type_error_witness :
  (run (getPackages sample_client) (respond holed_list_envelope)).1 = Throw TypeErr
  ∧ (run (getBalance sample_client) (respond holed_balance_envelope)).1 = Throw TypeErr.
Proof.
  assert (Exists (λ item, nullish item = true)
                 [JObj first_package; JNull; JObj second_package]) as Hhole.
  { apply Exists_cons_tl, Exists_cons_hd. reflexivity. }
  assert (Exists (λ item, nullish item = true) [JNull]) as Hnull.
  { apply Exists_cons_hd. reflexivity. }
  split.
  - apply (proj1 (null_item_type_error sample_client (respond holed_list_envelope)
                    holed_list_envelope
                    [JObj first_package; JNull; JObj second_package] Hhole));
      [apply respond_ok; reflexivity | reflexivity].
  - apply (proj2 (null_item_type_error sample_client (respond holed_balance_envelope)
                    holed_balance_envelope [JNull] Hnull));
      [apply respond_ok; reflexivity | reflexivity].
Defined.

(** ** What is passed through *)

(** X9: getResult returns every property of the body other than status
    and finished as received, and getBalance every property other than
    status and operations. *)
Theorem other_fields_kept this net d :
  (∀ id,
     replies_ok net (request_of this (OpGetResult id)) d →
     ∃ out, (run (getResult this id) net).1 = Return (JObj out) ∧
            ∀ k, k ≠ "status" → k ≠ "finished" → out !! k = d !! k)
  ∧ (∀ ops,
     replies_ok net (request_of this OpGetBalance) d →
     d !! "operations" = Some (JArr ops) →
     Forall (λ item, nullish item = false) ops →
     ∃ out, (run (getBalance this) net).1 = Return (JObj out) ∧
            ∀ k, k ≠ "status" → k ≠ "operations" → out !! k = d !! k).
Proof.
  split.
  - intros id Hok. rewrite (getResult_ok _ _ _ _ Hok). simpl.
    eexists. split; [done|]. intros k Hs Hf.
    by rewrite lookup_delete_ne, lookup_alter_ne by done.
  - intros ops Hok Harr Hops. rewrite (getBalance_ok _ _ _ _ Hok Harr Hops). simpl.
    eexists. split; [done|]. intros k Hs Ho.
    by rewrite lookup_delete_ne, lookup_insert_ne by done.
Qed.

Lemma other_fields_kept_witness :
  (∃ out, (run (getResult sample_client "p2") (respond result_envelope)).1
            = Return (JObj out) ∧
          ∀ k, k ≠ "status" → k ≠ "finished" → out !! k = result_envelope !! k)
  ∧ (∃ out, (run (getBalance sample_client) (respond balance_envelope)).1
              = Return (JObj out) ∧
            ∀ k, k ≠ "status" → k ≠ "operations" → out !! k = balance_envelope !! k).
Proof.
  split.
  - apply (proj1 (other_fields_kept sample_client (respond result_envelope)
                    result_envelope) "p2").
    apply respond_ok; reflexivity.
  - apply (proj2 (other_fields_kept sample_client (respond balance_envelope)
                    balance_envelope) [JObj deposit]);
      [apply respond_ok; reflexivity | reflexivity | repeat constructor].
Defined.

(** ** The client keeps no state between calls *)












(** ** Messages *)

Lemma table_message c m :
  (c, m) ∈ message_table → translateErrorCode (JStr c) = m.
Proof.
  intros H.
  assert (Forall (λ cm, translateErrorCode (JStr cm.1) = cm.2) message_table) as Hall
    by (unfold message_table; repeat constructor).
  rewrite Forall_forall in Hall. apply (Hall _ H).
Qed.

(** X11: translateErrorCode yields 'Unknown error code' exactly for the
    values that are none of the twelve enumerated codes, and it gives
    different codes different messages, so that the message of a
    TagiasError identifies its code. *)
Theorem messages_identify_codes :
  (∀ v, translateErrorCode v = "Unknown error code" ↔
        ∀ c, c ∈ TagiasErrors.all → v ≠ JStr c)
  ∧ (∀ c1 c2, c1 ∈ TagiasErrors.all → c2 ∈ TagiasErrors.all →
       translateErrorCode (JStr c1) = translateErrorCode (JStr c2) → c1 = c2).
Proof.
  split.
  - intros v. split; [|apply translate_unknown].
    intros H c Hc ->. unfold TagiasErrors.all in Hc.
    repeat (apply elem_of_cons in Hc as [-> | Hc]; [vm_compute in H; discriminate|]).
    by apply not_elem_of_nil in Hc.
  - assert (Forall (λ c1, Forall (λ c2,
        translateErrorCode (JStr c1) = translateErrorCode (JStr c2) → c1 = c2)
        TagiasErrors.all) TagiasErrors.all) as Hall.
    { apply (bool_decide_unpack _). by vm_compute. }
    intros c1 c2 H1 H2. rewrite Forall_forall in Hall.
    specialize (Hall c1 H1). rewrite Forall_forall in Hall. by apply Hall.
Qed.

(** X12: when the body's status is not "ok" and its error field holds
    one of the twelve enumerated codes, every operation throws the
    TagiasError with that code and the message of the table for it. *)
Theorem known_code_message this op net result data status c m :
  net (request_of this op) = Resolved result →
  getProp result "data" = Some data →
  getProp data "status" = Some status →
  status ≠ JStr "ok" →
  getProp data "error" = Some (JStr c) →
  (c, m) ∈ message_table →
  (run (perform this op) net).1 =
    Throw (TagiasErr {| message := m; code := JStr c; name := "TagiasError" |}).
Proof.
  intros Hnet Hdata Hstatus Hne Herror Hcm.
  destruct (apiCall_not_ok net [] _ _ _ _ Hnet Hdata Hstatus Hne) as (error' & Herr & Hcall).
  assert (error' = JStr c) as -> by congruence.
  unfold run. rewrite (perform_throw _ _ _ _ _ _ Hcall). simpl.
  unfold TagiasError_new. by rewrite (table_message c m).
Qed.

Lemma known_code_message_witness :
  (run (perform sample_client (OpGetPackage "p9")) (respond error_envelope)).1 =
    Throw (TagiasErr {| message := "The specified object does not exist";
                        code := JStr "NOTFOUND"; name := "TagiasError" |}).
Proof.
  apply (known_code_message sample_client (OpGetPackage "p9") (respond error_envelope)
           (response_of error_envelope) (JObj error_envelope) (JStr "error"));
    [reflexivity | reflexivity | reflexivity | discriminate | reflexivity |].
  apply (bool_decide_unpack _). vm_compute. exact I.
Defined.

Lemma messages_identify_codes_witness :
  translateErrorCode (JNum 404) = "Unknown error code".
Proof.
  apply (proj2 (proj1 messages_identify_codes (JNum 404))).
  intros c _. discriminate.
Defined.

(** ** Requests *)

(** X13: setPackageStatus sends a body with the single property status,
    holding the argument as given, whatever value it is; getPackages,
    getPackage, requestResult, getResult and getBalance send no body. *)
Theorem request_bodies this net :
  (∀ id status,
     ∃ rq data, (run (setPackageStatus this id status) net).2 = [rq] ∧
                body rq = Some (JObj data) ∧
                dom data = {["status"]} ∧
                data !! "status" = Some status)
  ∧ body <$> (run (getPackages this) net).2 = [None]
  ∧ (∀ id, body <$> (run (getPackage this id) net).2 = [None])
  ∧ (∀ id, body <$> (run (requestResult this id) net).2 = [None])
  ∧ (∀ id, body <$> (run (getResult this id) net).2 = [None])
  ∧ body <$> (run (getBalance this) net).2 = [None].
Proof.
  repeat split.
  - intros id status. eexists _, _. split.
    { exact (perform_log this (OpSetPackageStatus id status) net []). }
    split; [reflexivity|]. split; [|by simplify_map_eq].
    rewrite dom_insert_L, dom_empty_L. set_solver.
  - exact (f_equal (fmap body) (perform_log this OpGetPackages net [])).
  - intros id. exact (f_equal (fmap body) (perform_log this (OpGetPackage id) net [])).
  - intros id. exact (f_equal (fmap body) (perform_log this (OpRequestResult id) net [])).
  - intros id. exact (f_equal (fmap body) (perform_log this (OpGetResult id) net [])).
  - exact (f_equal (fmap body) (perform_log this OpGetBalance net [])).
Qed.

(** X14: the identifier is put into the URL as it is, without any
    escaping: getPackage on the identifier "result/" followed by [id]
    issues the very request that getResult issues on [id]. *)
Theorem identifier_not_escaped this id net :
  (run (getPackage this ("result/" +:+ id)) net).2 = (run (getResult this id) net).2.
Proof.
  unfold run.
  etrans; [apply (perform_log this (OpGetPackage ("result/" +:+ id)))|].
  symmetry. etrans; [apply (perform_log this (OpGetResult id))|].
  reflexivity.
Qed.

(** ** Operations one after the other *)



